(** * The /compile pipeline of explorer.py

    A shallow embedding of [compile_code] (explorer.py, lines 177-279): the
    request handler that compiles one C snippet with GCC and with CCC,
    disassembles CCC's binary with objdump and cleans the listing.

    Python values are modelled as the code has them: a [str] is a sequence of
    Unicode code points, a dict is a finite map, the file system is a finite
    map from paths to nodes, and every [subprocess.run] is answered by an
    explicit description of what the child process does. *)

From Stdlib Require Import NArith ZArith String Ascii DecimalString.
From stdpp Require Import base option list gmap fin_maps.

Local Open Scope N_scope.

(** ** Python strings *)

(** A code point. *)
Abbreviation char := N.
(** A Python [str]. *)
Abbreviation pystr := (list N).

(** An ASCII literal as a Python string. *)
Fixpoint py (s : string) : pystr :=
  match s with
  | EmptyString => []
  | String a s' => N_of_ascii a :: py s'
  end.

Definition TAB : char := 9.
Definition LF : char := 10.
Definition CR : char := 13.

(** [str.isspace] on one character: the code points CPython's
    [_PyUnicode_IsWhitespace] accepts. *)
Definition is_space (c : char) : bool :=
  ((9 <=? c) && (c <=? 13)) || ((28 <=? c) && (c <=? 32))
  || (c =? 133) || (c =? 160) || (c =? 5760)
  || ((8192 <=? c) && (c <=? 8202))
  || (c =? 8232) || (c =? 8233) || (c =? 8239) || (c =? 8287) || (c =? 12288).

(** The line boundaries of [str.splitlines]: CPython's
    [_PyUnicode_IsLinebreak]. *)
Definition is_linebreak (c : char) : bool :=
  ((10 <=? c) && (c <=? 13)) || ((28 <=? c) && (c <=? 30))
  || (c =? 133) || (c =? 8232) || (c =? 8233).

Fixpoint lstrip (s : pystr) : pystr :=
  match s with
  | [] => []
  | c :: s' => if is_space c then lstrip s' else s
  end.

Definition rstrip (s : pystr) : pystr := rev (lstrip (rev s)).

(** [s.strip()] *)
Definition strip (s : pystr) : pystr := rstrip (lstrip s).

(** Truth value of a string: non-empty. *)
Definition truthy (s : pystr) : bool :=
  match s with [] => false | _ => true end.

Fixpoint startswith (p s : pystr) : bool :=
  match p, s with
  | [], _ => true
  | _ :: _, [] => false
  | a :: p', b :: s' => (a =? b) && startswith p' s'
  end.

(** [needle in hay] *)
Fixpoint contains (needle hay : pystr) : bool :=
  startswith needle hay ||
  match hay with
  | [] => false
  | _ :: hay' => contains needle hay'
  end.

(** [s.split(sep, 1)] for a one-character separator. *)
Fixpoint split1 (sep : char) (s : pystr) : list pystr :=
  match s with
  | [] => [[]]
  | c :: s' =>
      if c =? sep then [[]; s']
      else match split1 sep s' with
           | h :: t => (c :: h) :: t
           | [] => [[c]]
           end
  end.

(** [sep.join(parts)] *)
Fixpoint join (sep : pystr) (parts : list pystr) : pystr :=
  match parts with
  | [] => []
  | [p] => p
  | p :: rest => p ++ sep ++ join sep rest
  end.

(** [s.splitlines()]: [cur] holds the characters of the line being read, last
    one first. A carriage return followed by a line feed is one boundary, and
    no empty line is produced after a final boundary. *)
Fixpoint splitlines_from (cur : pystr) (s : pystr) : list pystr :=
  match s with
  | [] => match cur with [] => [] | _ => [rev cur] end
  | c :: s' =>
      if is_linebreak c then
        rev cur ::
          match s' with
          | d :: s'' =>
              if (c =? CR) && (d =? LF) then splitlines_from [] s''
              else splitlines_from [] s'
          | [] => []
          end
      else splitlines_from (c :: cur) s'
  end.

Definition splitlines (s : pystr) : list pystr := splitlines_from [] s.

(** ** Cleaning the objdump listing (lines 253-270) *)

Definition MARKER : pystr := py "Disassembly of section".

(** One turn of the [for line in lines] loop on the pair
    [(start_printing, clean_lines)]. *)
Definition clean_step (st : bool * list pystr) (line : pystr)
  : bool * list pystr :=
  let '(start_printing, clean_lines) := st in
  if contains MARKER line then (true, clean_lines)
  else if start_printing && truthy (strip line) then
    let parts := split1 TAB line in
    if decide (1 < length parts)%nat
    then (start_printing, clean_lines ++ [TAB :: default [] (parts !! 1%nat)])
    else (start_printing, clean_lines ++ [line])
  else (start_printing, clean_lines).

Definition clean_lines_of (lines : list pystr) : list pystr :=
  snd (fold_left clean_step lines (false, [])).

(** The text stored under ["asm"] for CCC: lines 253-270 applied to
    [dis.stdout]. *)
Definition clean_disassembly (stdout : pystr) : pystr :=
  join [LF] (clean_lines_of (splitlines stdout)).


(** ** The listing in the words of the specification *)

Definition is_marker (line : pystr) : bool := contains MARKER line.

(** A blank line: nothing but white space. *)
Definition blank (line : pystr) : bool := forallb is_space line.

(** The lines that follow the first marker line. *)
Fixpoint after_marker (lines : list pystr) : list pystr :=
  match lines with
  | [] => []
  | l :: ls => if is_marker l then ls else after_marker ls
  end.

(** The text after the first tab of a line, if it has a tab. *)
Fixpoint after_first_tab (line : pystr) : option pystr :=
  match line with
  | [] => None
  | c :: rest => if c =? TAB then Some rest else after_first_tab rest
  end.

(** A kept line as it is emitted: one tab and the text after the first tab, or
    the line itself when it has no tab. *)
Definition emitted (line : pystr) : pystr :=
  match after_first_tab line with
  | Some rest => TAB :: rest
  | None => line
  end.

(** The listing as the specification words it: every non-blank line after the
    first marker is emitted. *)
Definition listing_as_stated (lines : list pystr) : list pystr :=
  map emitted (List.filter (fun l => negb (blank l)) (after_marker lines)).

(** The listing with marker lines left out wherever they stand. *)
Definition listing (lines : list pystr) : list pystr :=
  map emitted
    (List.filter (fun l => negb (blank l) && negb (is_marker l))
       (after_marker lines)).

(** ** Results, exceptions, processes *)

(** The value stored under ["gcc"] or ["ccc"]: the dict
    [{"success": True, "asm": s}] or [{"success": False, "error": s}]. *)
Inductive backend_result :=
| Success (asm : pystr)
| Failure (error : pystr).

(** What [except Exception as e] can catch here: the timeout raised by
    [subprocess.run], or any other exception, kept as its [str(e)]. *)
Inductive exception :=
| TimeoutExpired (cmd : list pystr) (timeout : N)
| OtherError (message : pystr).

(** A node of the file system. *)
Inductive node :=
| Dir
| File (content : pystr).

Abbreviation filesystem := (gmap (list N) node).

(** One call of [subprocess.run]: the command, and the keyword arguments
    [cwd], [timeout] (seconds) and [text]; [capture_output=True] is passed by
    every call. *)
Record invocation := {
  argv : list pystr;
  cwd : option pystr;
  timeout : option N;
  text : bool;
}.

(** How a child process ends: it exits after some milliseconds, it runs for
    ever, or [subprocess.run] raises on its own (the program cannot be
    started, its output cannot be decoded). *)
Inductive ending :=
| Exits (returncode : Z) (stdout stderr : pystr) (duration : N)
| NeverExits
| RunFails (message : pystr).

(** What a child process does: its effect on the file system and its end. *)
Record behaviour := {
  effect : filesystem -> filesystem;
  ending_of : ending;
}.

(** [subprocess.CompletedProcess] *)
Record completed := {
  returncode : Z;
  stdout : pystr;
  stderr : pystr;
}.

(** Everything a run depends on besides the request. *)
Record world := {
  (** [os.path.dirname(os.path.abspath(__file__))] *)
  BASE_DIR : pystr;
  (** Python's [repr] on strings *)
  repr : pystr -> pystr;
  (** the names tempfile's random sequence yields, in order *)
  random_names : list pystr;
  (** [os.mkdir] failing for another reason than an existing path *)
  mkdir_error : option pystr;
  (** [open(src, "w")] failing *)
  open_error : option pystr;
  (** [f.write(code)] failing on the text written (a character the file's
      encoding does not have, a full disk) *)
  write_error : pystr -> option pystr;
  (** [print(text)] failing on the text printed (a character the console's
      encoding does not have) *)
  print_error : pystr -> option pystr;
  (** the child process an invocation starts, given the files it finds *)
  process : invocation -> filesystem -> behaviour;
}.

(** ** State and control *)

Inductive outcome (A : Type) :=
| Returns (a : A)
| Raises (e : exception)
| Blocks.
Arguments Returns {A} a.
Arguments Raises {A} e.
Arguments Blocks {A}.

(** One call of [subprocess.run] and how it came back. *)
Abbreviation call := (invocation * outcome completed)%type.

Record state := {
  fs : filesystem;
  (** the calls of [subprocess.run] so far, oldest first *)
  launched : list call;
  (** the lines printed on the server's console so far, oldest first *)
  console : list pystr;
}.

Definition M (A : Type) : Type := state -> outcome A * state.

Definition ret {A} (a : A) : M A := fun st => (Returns a, st).

Definition bind {A B} (m : M A) (k : A -> M B) : M B :=
  fun st =>
    match m st with
    | (Returns a, st') => k a st'
    | (Raises e, st') => (Raises e, st')
    | (Blocks, st') => (Blocks, st')
    end.

Notation "'let*' x ':=' m 'in' k" := (bind m (fun x => k))
  (at level 10, x name, m at level 100, k at level 200).

(** [try: m except Exception as e: handler e] (and the bare [except:]). *)
Definition try_except {A} (m : M A) (handler : exception -> M A) : M A :=
  fun st =>
    match m st with
    | (Raises e, st') => handler e st'
    | r => r
    end.

(** ** Library calls *)

Definition decimal (n : N) : pystr := py (NilZero.string_of_uint (N.to_uint n)).

(** [str] of a list of strings. *)
Definition str_list (w : world) (l : list pystr) : pystr :=
  py "[" ++ join (py ", ") (map (repr w) l) ++ py "]".

(** [str(e)] *)
Definition str_exception (w : world) (e : exception) : pystr :=
  match e with
  | TimeoutExpired cmd t =>
      py "Command '" ++ str_list w cmd ++ py "' timed out after "
        ++ decimal t ++ py " seconds"
  | OtherError message => message
  end.

Definition endswith_slash (p : pystr) : bool :=
  match rev p with
  | c :: _ => c =? 47
  | [] => false
  end.

(** [os.path.join(a, b)] *)
Definition path_join (a b : pystr) : pystr :=
  if startswith (py "/") b then b
  else if negb (truthy a) || endswith_slash a then a ++ b
  else a ++ py "/" ++ b.

(** [os.path.exists(p)] *)
Definition path_exists (p : pystr) : M bool :=
  fun st => (Returns (bool_decide (is_Some (fs st !! p))), st).

(** [p] is the directory [d] or lies beneath it. *)
Definition within (d p : pystr) : bool :=
  bool_decide (p = d) || startswith (d ++ py "/") p.

(** [shutil.rmtree(d)] *)
Definition rmtree (d : pystr) (f : filesystem) : filesystem :=
  filter (fun e => within d e.1 = false) f.

(** How [subprocess.run] comes back from a child that ends as [e]: it returns
    when the child has exited; with a timeout, a child still running when the
    time is up is killed and [TimeoutExpired] is raised; without one, the call
    waits for a child that never exits. *)
Definition run_outcome (inv : invocation) (e : ending) : outcome completed :=
  match e, timeout inv with
  | RunFails message, _ => Raises (OtherError message)
  | Exits rc out err d, Some t =>
      if 1000 * t <? d then Raises (TimeoutExpired (argv inv) t)
      else Returns {| returncode := rc; stdout := out; stderr := err |}
  | Exits rc out err d, None =>
      Returns {| returncode := rc; stdout := out; stderr := err |}
  | NeverExits, Some t => Raises (TimeoutExpired (argv inv) t)
  | NeverExits, None => Blocks
  end.

(** [subprocess.run(argv, capture_output=True, ...)]: the child does what it
    does to the files, and the call is recorded with its outcome. *)
Definition subprocess_run (w : world) (inv : invocation) : M completed :=
  fun st =>
    let b := process w inv (fs st) in
    let o := run_outcome inv (ending_of b) in
    (o, {| fs := effect b (fs st); launched := launched st ++ [(inv, o)];
           console := console st |}).

(** [tempfile.mkdtemp(dir=dir)]: the first random name whose path does not
    exist yet is created; when every name is taken, [FileExistsError]. *)
Definition mkdtemp (w : world) (dir : pystr) : M pystr :=
  fun st =>
    match mkdir_error w with
    | Some message => (Raises (OtherError message), st)
    | None =>
        match
          List.find
            (fun name =>
               bool_decide (fs st !! path_join dir (py "tmp" ++ name) = None))
            (random_names w)
        with
        | Some name =>
            let d := path_join dir (py "tmp" ++ name) in
            (Returns d, {| fs := <[d := Dir]> (fs st); launched := launched st;
                           console := console st |})
        | None =>
            (Raises
               (OtherError
                  (py "[Errno 17] No usable temporary directory name found")),
             st)
        end
    end.

(** [with tempfile.TemporaryDirectory(dir=dir) as temp_dir: body]: the
    directory is removed with all it holds when the body is left, by a return
    or by an exception. *)
Definition with_TemporaryDirectory {A} (w : world) (dir : pystr)
    (body : pystr -> M A) : M A :=
  fun st =>
    match mkdtemp w dir st with
    | (Returns temp_dir, st1) =>
        match body temp_dir st1 with
        | (Blocks, st2) => (Blocks, st2)
        | (r, st2) =>
            (r, {| fs := rmtree temp_dir (fs st2); launched := launched st2;
                   console := console st2 |})
        end
    | (Raises e, st1) => (Raises e, st1)
    | (Blocks, st1) => (Blocks, st1)
    end.

(** [with open(path, "w") as f: f.write(content)] *)
Definition write_file (w : world) (path content : pystr) : M unit :=
  fun st =>
    match open_error w with
    | Some message => (Raises (OtherError message), st)
    | None =>
        match write_error w content with
        | Some message =>
            (Raises (OtherError message),
             {| fs := <[path := File []]> (fs st); launched := launched st;
                console := console st |})
        | None =>
            (Returns tt,
             {| fs := <[path := File content]> (fs st);
                launched := launched st;
                console := console st |})
        end
    end.

(** [print(text)]: the line goes to the console, unless it cannot be
    encoded. *)
Definition print_line (w : world) (text : pystr) : M unit :=
  fun st =>
    match print_error w text with
    | Some message => (Raises (OtherError message), st)
    | None =>
        (Returns tt,
         {| fs := fs st; launched := launched st;
            console := console st ++ [text] |})
    end.

(** ** The request handler *)

Definition GCC_BINARY : pystr := py "/usr/bin/gcc".

Definition CCC_BINARY (w : world) : pystr :=
  path_join (BASE_DIR w) (py "claudes-c-compiler/target/release/ccc").

Definition TEMP_DIR : pystr := py "/dev/shm".

(** [d.get(key, fallback)] *)
Definition get (d : gmap (list N) (list N)) (key fallback : pystr) : pystr :=
  default fallback (d !! key).

(** Lines 201-203: the GCC command and how it is run. *)
Definition gcc_invocation (opt_level src : pystr) : invocation :=
  {| argv := [GCC_BINARY; opt_level; py "-S"; py "-fverbose-asm"; py "-o";
              py "-"; src];
     cwd := None; timeout := Some 5; text := true |}.

(** Lines 220-222: the CCC command and how it is run. *)
Definition ccc_invocation (w : world) (temp_dir src out_bin : pystr)
  : invocation :=
  {| argv := [CCC_BINARY w; py "-c"; src; py "-o"; out_bin];
     cwd := Some temp_dir; timeout := Some 5; text := true |}.

(** Line 235: the probe for the cross objdump. *)
Definition probe_invocation : invocation :=
  {| argv := [py "x86_64-linux-gnu-objdump"; py "--version"];
     cwd := None; timeout := None; text := false |}.

(** Lines 240-249: the disassembler command and how it is run. *)
Definition objdump_invocation (objdump_cmd out_bin : pystr) : invocation :=
  {| argv := [objdump_cmd; py "-d"; py "-M"; py "intel";
              py "--no-show-raw-insn"; out_bin];
     cwd := None; timeout := Some 5; text := true |}.

(** Lines 232-238: [objdump_cmd]. *)
Definition select_objdump (w : world) : M pystr :=
  try_except
    (let* _ := subprocess_run w probe_invocation in
     ret (py "x86_64-linux-gnu-objdump"))
    (fun _ => ret (py "objdump")).

(** Lines 200-208: the suite of the first [try]; the result is [results]
    after it. *)
Definition gcc_suite (w : world) (opt_level src : pystr)
    (results : gmap (list N) backend_result)
  : M (gmap (list N) backend_result) :=
  let* proc := subprocess_run w (gcc_invocation opt_level src) in
  if (returncode proc =? 0)%Z
  then ret (<[py "gcc" := Success (stdout proc)]> results)
  else ret (<[py "gcc" := Failure (stderr proc)]> results).

(** Lines 199-210: the GCC block. *)
Definition gcc_block (w : world) (opt_level src : pystr)
    (results : gmap (list N) backend_result)
  : M (gmap (list N) backend_result) :=
  try_except (gcc_suite w opt_level src results)
    (fun e => ret (<[py "gcc" := Failure (str_exception w e)]> results)).

(** Lines 231-272: the binary exists and is disassembled. *)
Definition disassemble (w : world) (out_bin : pystr)
    (results : gmap (list N) backend_result)
  : M (gmap (list N) backend_result) :=
  let* objdump_cmd := select_objdump w in
  let* dis := subprocess_run w (objdump_invocation objdump_cmd out_bin) in
  if (returncode dis =? 0)%Z
  then ret (<[py "ccc" := Success (clean_disassembly (stdout dis))]> results)
  else ret (<[py "ccc" := Failure (py "Objdump failed: " ++ stderr dis)]>
              results).

(** Lines 216-274: the suite of the second [try]. *)
Definition ccc_suite (w : world) (temp_dir src : pystr)
    (results : gmap (list N) backend_result)
  : M (gmap (list N) backend_result) :=
  let out_bin := path_join temp_dir (py "ccc_out") in
  let* proc := subprocess_run w (ccc_invocation w temp_dir src out_bin) in
  if negb (returncode proc =? 0)%Z then
    let err := if truthy (stderr proc) then stderr proc else stdout proc in
    ret (<[py "ccc" :=
             Failure (if truthy err then err else py "Unknown CCC Error")]>
           results)
  else
    let* found := path_exists out_bin in
    if found then disassemble w out_bin results
    else ret (<[py "ccc" := Failure (py "Binary missing")]> results).

(** Lines 215-277: the CCC block. *)
Definition ccc_block (w : world) (temp_dir src : pystr)
    (results : gmap (list N) backend_result)
  : M (gmap (list N) backend_result) :=
  try_except (ccc_suite w temp_dir src results)
    (fun e => ret (<[py "ccc" := Failure (str_exception w e)]> results)).

(** Lines 189-279: the body of the [with] statement. *)
Definition compile_in (w : world) (code opt_level temp_dir : pystr)
  : M (gmap (list N) backend_result) :=
  let src := path_join temp_dir (py "test.c") in
  let* _ := write_file w src code in
  let results : gmap (list N) backend_result := ∅ in
  let* results := gcc_block w opt_level src results in
  let* results := ccc_block w temp_dir src results in
  ret results.

(** Line 186: the text printed, [f"--> Compiling with level: {opt_level}"]. *)
Definition level_line (opt_level : pystr) : pystr :=
  py "--> Compiling with level: " ++ opt_level.

(** [compile_code], lines 178-279; [data] is [request.json], an object whose
    fields hold strings, and the value returned is the dict handed to
    [jsonify]. A request whose ['code'] or ['opt'] holds null, a number or
    another JSON value that is not a string is outside this embedding. *)
Definition compile_code (w : world) (data : gmap (list N) (list N))
  : M (gmap (list N) backend_result) :=
  let code := get data (py "code") (py "") in
  let opt_level := get data (py "opt") (py "-O0") in
  if negb (truthy (strip code)) then
    ret (<[py "gcc" := Failure (py "No code")]>
           (<[py "ccc" := Failure (py "No code")]> ∅))
  else
    let* _ := print_line w (level_line opt_level) in
    with_TemporaryDirectory w TEMP_DIR (compile_in w code opt_level).

(** The directory [compile_code] gets from [tempfile] in state [st], when it
    gets one. *)
Definition workspace (w : world) (st : state) : option pystr :=
  match fst (mkdtemp w TEMP_DIR st) with
  | Returns temp_dir => Some temp_dir
  | _ => None
  end.

(** The run of [compile_code] on [data] in state [st] enters the [with]
    block and gets past the writing of the source: the source is not blank,
    the level is printed, [temp_dir] is the directory made, and [test.c] is
    opened and written. *)
Definition set_up (w : world) (data : gmap (list N) (list N)) (st : state)
    (temp_dir : pystr) : Prop :=
  truthy (strip (get data (py "code") (py ""))) = true
  /\ print_error w (level_line (get data (py "opt") (py "-O0"))) = None
  /\ workspace w st = Some temp_dir
  /\ open_error w = None
  /\ write_error w (get data (py "code") (py "")) = None.

(** ** Concrete inputs *)

(** A listing with a header, two section markers, a label, two instruction
    lines and blank lines. *)
Definition two_sections : pystr :=
  py "a.o:     file format elf64-x86-64" ++ [LF; LF]
  ++ py "Disassembly of section .text:" ++ [LF; LF]
  ++ py "0000000000000000 <main>:" ++ [LF]
  ++ py "  10:" ++ [TAB] ++ py "mov eax, 0" ++ [LF; LF]
  ++ py "Disassembly of section .text.startup:" ++ [LF; LF]
  ++ py "   0:" ++ [TAB] ++ py "ret" ++ [LF].

(** The listing of the specification's example. *)
Definition one_section : pystr :=
  py "a.o:     file format elf64-x86-64" ++ [LF; LF]
  ++ py "Disassembly of section .text:" ++ [LF; LF]
  ++ py "  10:" ++ [TAB] ++ py "mov eax, 0" ++ [LF].

(** A child process that touches no file. *)
Definition quiet (e : ending) : behaviour := {| effect := id; ending_of := e |}.

(** CCC when it writes its output file, the path after [-o]. *)
Definition writes_output (inv : invocation) (e : ending) : behaviour :=
  {| effect := fun f => <[default [] (argv inv !! 4%nat) := File (py "ELF")]> f;
     ending_of := e |}.

(** A machine on which the four tools behave as given, whatever the files. *)
Definition machine (gcc : ending) (ccc : invocation -> behaviour)
    (probe objdump : ending) : world :=
  {| BASE_DIR := py "/srv/explorer";
     repr := fun s => py "'" ++ s ++ py "'";
     random_names := [py "k3x9q_ab"];
     mkdir_error := None;
     open_error := None;
     write_error := fun _ => None;
     print_error := fun _ => None;
     process := fun inv _ =>
       if bool_decide (argv inv !! 0%nat = Some GCC_BINARY) then quiet gcc
       else if bool_decide (argv inv !! 1%nat = Some (py "-c")) then ccc inv
       else if bool_decide (argv inv !! 1%nat = Some (py "--version"))
       then quiet probe
       else quiet objdump |}.

Definition gcc_asm : pystr := py "square:" ++ [LF; TAB] ++ py "ret" ++ [LF].

(** Every tool is there and succeeds. *)
Definition all_well : world :=
  machine (Exits 0 gcc_asm [] 120)
    (fun inv => writes_output inv (Exits 0 [] [] 80))
    (Exits 0 (py "GNU objdump") [] 10)
    (Exits 0 one_section [] 30).

(** GCC is killed by a signal and leaves nothing on either stream; CCC
    rejects the source. *)
Definition gcc_killed : world :=
  machine (Exits (-9) [] [] 300)
    (fun _ => quiet (Exits 1 [] (py "error: expected ';'") 20))
    (Exits 0 (py "GNU objdump") [] 10)
    (Exits 0 one_section [] 30).

(** The cross objdump is not installed. *)
Definition cross_objdump_missing : world :=
  machine (Exits 0 gcc_asm [] 120)
    (fun inv => writes_output inv (Exits 0 [] [] 80))
    (RunFails (py "[Errno 2] No such file or directory"))
    (Exits 0 one_section [] 30).

(** The cross objdump is installed and fails when asked for its version. *)
Definition cross_objdump_broken : world :=
  machine (Exits 0 gcc_asm [] 120)
    (fun inv => writes_output inv (Exits 0 [] [] 80))
    (Exits 127 [] (py "error while loading shared libraries") 5)
    (Exits 0 one_section [] 30).

(** The cross objdump never comes back from the probe. *)
Definition probe_hangs : world :=
  machine (Exits 0 gcc_asm [] 120)
    (fun inv => writes_output inv (Exits 0 [] [] 80))
    NeverExits
    (Exits 0 one_section [] 30).

(** CCC exits with 0 and writes nothing. *)
Definition no_binary : world :=
  machine (Exits 0 gcc_asm [] 120)
    (fun _ => quiet (Exits 0 [] [] 80))
    (Exits 0 (py "GNU objdump") [] 10)
    (Exits 0 one_section [] 30).

(** GCC runs for six seconds. *)
Definition gcc_slow : world :=
  machine (Exits 0 gcc_asm [] 6000)
    (fun inv => writes_output inv (Exits 0 [] [] 80))
    (Exits 0 (py "GNU objdump") [] 10)
    (Exits 0 one_section [] 30).


(** A request with a snippet and [-O2]. *)
Definition square_O2 : gmap (list N) (list N) :=
  <[py "code" := py "int square(int num){return num*num;}"]>
    (<[py "opt" := py "-O2"]> ∅).

(** A request with a snippet and no ['opt'] field. *)
Definition square_no_opt : gmap (list N) (list N) :=
  <[py "code" := py "int square(int num){return num*num;}"]> ∅.

(** A request whose source is white space only. *)
Definition only_spaces : gmap (list N) (list N) :=
  <[py "code" := [32; TAB; LF; 32]]> (<[py "opt" := py "-O2"]> ∅).

(** An empty [/dev/shm] and no call made yet. *)
Definition fresh : state :=
  {| fs := <[TEMP_DIR := Dir]> ∅; launched := [];
     console := [] |}.

(** The state of the run of [square_O2] on [no_binary] when CCC's call has
    come back. *)
Definition no_binary_after_ccc : state :=
  snd (subprocess_run no_binary
         (ccc_invocation no_binary (py "/dev/shm/tmpk3x9q_ab")
            (py "/dev/shm/tmpk3x9q_ab/test.c")
            (py "/dev/shm/tmpk3x9q_ab/ccc_out"))
         (snd (gcc_block no_binary (py "-O2")
                 (py "/dev/shm/tmpk3x9q_ab/test.c") ∅
                 {| fs := <[py "/dev/shm/tmpk3x9q_ab/test.c" :=
                              File (py "int square(int num){return num*num;}")]>
                            (<[py "/dev/shm/tmpk3x9q_ab" := Dir]> (fs fresh));
                    launched := launched fresh;
                    console := console fresh ++ [level_line (py "-O2")] |}))).

(** A lone surrogate, which UTF-8 does not encode. *)
Definition is_surrogate (c : char) : bool := (55296 <=? c) && (c <=? 57343).

Definition not_utf8 (text : pystr) : option pystr :=
  if existsb is_surrogate text
  then Some (py "'utf-8' codec can't encode character: surrogates not allowed")
  else None.

(** A machine where every tool is there and succeeds, whose console and
    files are UTF-8. *)
Definition utf8_machine : world :=
  {| BASE_DIR := BASE_DIR all_well;
     repr := repr all_well;
     random_names := random_names all_well;
     mkdir_error := None;
     open_error := None;
     write_error := not_utf8;
     print_error := not_utf8;
     process := process all_well |}.

(** A request whose source ends in a comment with a lone surrogate (the JSON
    escape [\ud800]). *)
Definition surrogate_source : gmap (list N) (list N) :=
  <[py "code" := py "int x; // " ++ [55296]]> (<[py "opt" := py "-O2"]> ∅).

(** A request whose level is a lone surrogate. *)
Definition surrogate_opt : gmap (list N) (list N) :=
  <[py "code" := py "int x;"]> (<[py "opt" := [55296]]> ∅).


(** A child that is still running when [t] seconds are over. *)
Definition outlives (t : N) (e : ending) : Prop :=
  match e with
  | Exits _ _ _ d => 1000 * t < d
  | NeverExits => True
  | RunFails _ => False
  end.


(** The disassembler rejects the binary and says nothing. *)
Definition objdump_fails : world :=
  machine (Exits 0 gcc_asm [] 120)
    (fun inv => writes_output inv (Exits 0 [] [] 80))
    (Exits 0 (py "GNU objdump") [] 10)
    (Exits 1 [] [] 30).

(** * Theorems *)

(** ** Strings *)

Lemma lstrip_nil (s : pystr) : lstrip s = [] <-> forallb is_space s = true.
Proof.
  induction s as [|c s IH]; simpl; [tauto|].
  destruct (is_space c); simpl; [exact IH|].
  split; discriminate.
Qed.

Lemma forallb_lstrip (s : pystr) :
  forallb is_space (lstrip s) = forallb is_space s.
Proof.
  induction s as [|c s IH]; simpl; [reflexivity|].
  destruct (is_space c) eqn:E; simpl; [exact IH|].
  rewrite E. reflexivity.
Qed.

Lemma forallb_rev_space (s : pystr) :
  forallb is_space (rev s) = forallb is_space s.
Proof.
  induction s as [|c s IH]; simpl; [reflexivity|].
  rewrite forallb_app, IH. simpl.
  destruct (forallb is_space s), (is_space c); reflexivity.
Qed.

Lemma strip_nil (s : pystr) : strip s = [] <-> blank s = true.
Proof.
  unfold strip, rstrip, blank.
  rewrite <- (forallb_lstrip s), <- (forallb_rev_space (lstrip s)).
  rewrite <- lstrip_nil.
  split; intros H.
  - apply (f_equal (@rev N)) in H. rewrite rev_involutive in H. exact H.
  - rewrite H. reflexivity.
Qed.

Lemma truthy_strip (s : pystr) : truthy (strip s) = negb (blank s).
Proof.
  destruct (blank s) eqn:E.
  - apply strip_nil in E. rewrite E. reflexivity.
  - destruct (strip s) eqn:F; [|reflexivity].
    apply strip_nil in F. congruence.
Qed.

Lemma split1_tab (line : pystr) :
  match after_first_tab line with
  | Some rest => exists before, split1 TAB line = [before; rest]
  | None => split1 TAB line = [line]
  end.
Proof.
  induction line as [|c line IH]; simpl; [reflexivity|].
  destruct (c =? TAB); [eexists; reflexivity|].
  destruct (after_first_tab line).
  - destruct IH as [before ->]. eexists; reflexivity.
  - rewrite IH. reflexivity.
Qed.

(** ** The cleaning loop *)

Lemma clean_step_marker st line :
  is_marker line = true -> clean_step st line = (true, st.2).
Proof.
  unfold clean_step, is_marker. destruct st as [b acc]. intros ->. reflexivity.
Qed.

Lemma clean_step_before acc line :
  is_marker line = false -> clean_step (false, acc) line = (false, acc).
Proof. unfold clean_step, is_marker. intros ->. reflexivity. Qed.

Lemma clean_step_after acc line :
  is_marker line = false ->
  clean_step (true, acc) line =
    (true, if blank line then acc else acc ++ [emitted line]).
Proof.
  unfold clean_step, is_marker. intros ->. simpl.
  rewrite truthy_strip. destruct (blank line); simpl; [reflexivity|].
  unfold emitted. pose proof (split1_tab line) as H.
  destruct (after_first_tab line) as [rest|].
  - destruct H as [before ->]. reflexivity.
  - rewrite H. reflexivity.
Qed.

Lemma fold_clean_after lines acc :
  fold_left clean_step lines (true, acc) =
    (true,
     acc ++ map emitted
       (List.filter (fun l => negb (blank l) && negb (is_marker l)) lines)).
Proof.
  revert acc. induction lines as [|l lines IH]; intros acc;
    cbn [fold_left List.filter].
  - simpl. rewrite app_nil_r. reflexivity.
  - destruct (is_marker l) eqn:Em.
    + rewrite clean_step_marker by exact Em. cbn [snd]. rewrite IH.
      rewrite andb_false_r. reflexivity.
    + rewrite clean_step_after by exact Em. rewrite andb_true_r.
      destruct (blank l); cbn [negb map]; rewrite IH; [reflexivity|].
      rewrite <- app_assoc. reflexivity.
Qed.

Lemma fold_clean_before lines :
  snd (fold_left clean_step lines (false, [])) = listing lines.
Proof.
  unfold listing.
  induction lines as [|l lines IH]; cbn [fold_left after_marker];
    [reflexivity|].
  destruct (is_marker l) eqn:Em.
  - rewrite clean_step_marker by exact Em. cbn [snd].
    rewrite fold_clean_after. reflexivity.
  - rewrite clean_step_before by exact Em. exact IH.
Qed.

(** C2 (amended). For every disassembler output, the cleaned text is the
    newline-joined list of: the lines after the first line containing the
    marker "Disassembly of section", without the blank ones and without
    those that contain the marker themselves, each one with a tab replaced by
    a tab and the text after its first tab, the others unchanged. The
    specification's example (header, marker, then "  10:<tab>mov eax, 0")
    cleans to "<tab>mov eax, 0". *)
Theorem clean_disassembly_listing :
  (forall out : pystr,
      clean_disassembly out = join [LF] (listing (splitlines out)))
  /\ clean_disassembly one_section = TAB :: py "mov eax, 0".
Proof.
  split.
  - intros out. unfold clean_disassembly, clean_lines_of.
    rewrite fold_clean_before. reflexivity.
  - vm_compute. reflexivity.
Qed.

(** C2 as stated fails: a second marker line stands after the first marker, is
    not blank and has no tab, and it is dropped rather than emitted
    unchanged. *)
Lemma clean_disassembly_drops_later_markers :
  clean_disassembly two_sections
    <> join [LF] (listing_as_stated (splitlines two_sections))
  /\ In (py "Disassembly of section .text.startup:")
       (listing_as_stated (splitlines two_sections))
  /\ clean_disassembly two_sections
     = py "0000000000000000 <main>:" ++ [LF; TAB] ++ py "mov eax, 0"
       ++ [LF; TAB] ++ py "ret".
Proof.
  split; [|split].
  - vm_compute. discriminate.
  - vm_compute. tauto.
  - vm_compute. reflexivity.
Qed.

(** ** Running one child process *)

Lemma subprocess_run_eq w inv st :
  subprocess_run w inv st =
    (run_outcome inv (ending_of (process w inv (fs st))),
     {| fs := effect (process w inv (fs st)) (fs st);
        launched :=
          launched st
            ++ [(inv, run_outcome inv (ending_of (process w inv (fs st))))];
        console := console st |}).
Proof. reflexivity. Qed.

(** A call with a timeout comes back. *)
Lemma run_outcome_bounded inv t e :
  timeout inv = Some t -> run_outcome inv e <> Blocks.
Proof.
  unfold run_outcome. intros ->.
  destruct e as [rc out err d| |m]; [destruct (1000 * t <? d)| |]; discriminate.
Qed.

(** A child that outlives the timeout of its call ends the call with
    [TimeoutExpired]. *)
Lemma run_outcome_timeout inv t rc out err d :
  timeout inv = Some t ->
  run_outcome inv NeverExits = Raises (TimeoutExpired (argv inv) t)
  /\ (1000 * t < d ->
      run_outcome inv (Exits rc out err d)
        = Raises (TimeoutExpired (argv inv) t)).
Proof.
  unfold run_outcome. intros ->. split; [reflexivity|].
  intros H. apply N.ltb_lt in H. rewrite H. reflexivity.
Qed.

(** A call blocks only on a child that never exits. *)
Lemma run_outcome_blocks inv e :
  run_outcome inv e = Blocks -> e = NeverExits /\ timeout inv = None.
Proof.
  unfold run_outcome.
  destruct e as [rc out err d| |m], (timeout inv) as [t|];
    try destruct (1000 * t <? d); try discriminate; auto.
Qed.

(** ** The work space *)

Lemma mkdtemp_workspace w st temp_dir :
  workspace w st = Some temp_dir ->
  mkdtemp w TEMP_DIR st =
    (Returns temp_dir,
     {| fs := <[temp_dir := Dir]> (fs st); launched := launched st;
        console := console st |})
  /\ fs st !! temp_dir = None.
Proof.
  unfold workspace, mkdtemp.
  destruct (mkdir_error w); [discriminate|].
  destruct (List.find _ (random_names w)) as [name|] eqn:F; [|discriminate].
  cbn [fst]. intros [= <-]. split; [reflexivity|].
  apply find_some in F as [_ F]. apply bool_decide_eq_true in F. exact F.
Qed.


Lemma within_self d : within d d = true.
Proof. unfold within. rewrite bool_decide_eq_true_2; reflexivity. Qed.

(** ** The two blocks *)

(** The GCC block always returns, with a value under ["gcc"], after exactly
    one call. *)
Lemma gcc_block_run w opt_level src results st :
  exists a o,
    gcc_block w opt_level src results st =
      (Returns (<[py "gcc" := a]> results),
       {| fs := effect (process w (gcc_invocation opt_level src) (fs st)) (fs st);
          launched := launched st ++ [(gcc_invocation opt_level src, o)];
          console := console st |})
    /\ (forall e, o = Raises e -> a = Failure (str_exception w e))
    /\ (forall proc, o = Returns proc ->
          a = if (returncode proc =? 0)%Z then Success (stdout proc)
              else Failure (stderr proc)).
Proof.
  unfold gcc_block, gcc_suite, try_except, bind. rewrite subprocess_run_eq.
  pose proof (run_outcome_bounded (gcc_invocation opt_level src) 5
                (ending_of (process w (gcc_invocation opt_level src) (fs st)))
                eq_refl) as Hb.
  destruct (run_outcome _ _) as [proc|e|] eqn:Ho; [| |congruence].
  - destruct (returncode proc =? 0)%Z eqn:Erc; unfold ret;
      eexists _, _; (split; [reflexivity|]); split;
      intros ? [= <-]; rewrite ?Erc; reflexivity.
  - unfold ret. eexists _, _. split; [reflexivity|].
    split; [intros ? [= <-]; reflexivity|discriminate].
Qed.

(** The CCC block by the outcome of CCC's call: an exception and a non-zero
    exit are stored as failures, a missing binary as "Binary missing", and
    otherwise the disassembly runs under the same [try]. *)
Lemma ccc_block_run w temp_dir src results st :
  let out_bin := path_join temp_dir (py "ccc_out") in
  let inv := ccc_invocation w temp_dir src out_bin in
  let o := run_outcome inv (ending_of (process w inv (fs st))) in
  let st1 := {| fs := effect (process w inv (fs st)) (fs st);
                launched := launched st ++ [(inv, o)];
                console := console st |} in
  match o with
  | Blocks => False
  | Raises e =>
      ccc_block w temp_dir src results st =
        (Returns (<[py "ccc" := Failure (str_exception w e)]> results), st1)
  | Returns proc =>
      if (returncode proc =? 0)%Z then
        if bool_decide (is_Some (fs st1 !! out_bin)) then
          ccc_block w temp_dir src results st =
            try_except (disassemble w out_bin results)
              (fun e =>
                 ret (<[py "ccc" := Failure (str_exception w e)]> results))
              st1
        else
          ccc_block w temp_dir src results st =
            (Returns (<[py "ccc" := Failure (py "Binary missing")]> results),
             st1)
      else
        ccc_block w temp_dir src results st =
          (Returns
             (<[py "ccc" :=
                  Failure
                    (if truthy (stderr proc) then stderr proc
                     else if truthy (stdout proc) then stdout proc
                     else py "Unknown CCC Error")]> results),
           st1)
  end.
Proof.
  intros out_bin inv o st1.
  unfold ccc_block, ccc_suite, try_except, bind. fold out_bin. fold inv.
  rewrite subprocess_run_eq. fold o. fold st1.
  pose proof (run_outcome_bounded inv 5
                (ending_of (process w inv (fs st))) eq_refl) as Hb.
  fold o in Hb.
  destruct o as [proc|e|]; [| reflexivity | congruence].
  destruct (returncode proc =? 0)%Z; cbn [negb].
  - unfold path_exists. cbv beta.
    destruct (bool_decide (is_Some (fs st1 !! out_bin))); reflexivity.
  - unfold ret. cbv zeta.
    destruct (truthy (stderr proc)) eqn:E; rewrite ?E; reflexivity.
Qed.

(** The disassembly under the second [try]: it blocks with the probe, and
    otherwise stores a value under ["ccc"] after the probe and one call of the
    objdump the probe selected. *)
Lemma disassemble_run w out_bin results st :
  let o_p :=
    run_outcome probe_invocation
      (ending_of (process w probe_invocation (fs st))) in
  let st1 := {| fs := effect (process w probe_invocation (fs st)) (fs st);
                launched := launched st ++ [(probe_invocation, o_p)];
                console := console st |} in
  let guarded :=
    try_except (disassemble w out_bin results)
      (fun e => ret (<[py "ccc" := Failure (str_exception w e)]> results)) in
  match o_p with
  | Blocks => guarded st = (Blocks, st1)
  | _ =>
      let objdump_cmd :=
        match o_p with
        | Returns _ => py "x86_64-linux-gnu-objdump"
        | _ => py "objdump"
        end in
      let inv := objdump_invocation objdump_cmd out_bin in
      let o_d := run_outcome inv (ending_of (process w inv (fs st1))) in
      exists b,
        guarded st =
          (Returns (<[py "ccc" := b]> results),
           {| fs := effect (process w inv (fs st1)) (fs st1);
              launched := launched st1 ++ [(inv, o_d)];
              console := console st1 |})
        /\ (forall e, o_d = Raises e -> b = Failure (str_exception w e))
        /\ (forall dis, o_d = Returns dis ->
              b = if (returncode dis =? 0)%Z
                  then Success (clean_disassembly (stdout dis))
                  else Failure (py "Objdump failed: " ++ stderr dis))
  end.
Proof.
  intros o_p st1 guarded.
  assert (Hrun : forall cmd,
    let inv := objdump_invocation cmd out_bin in
    let o_d := run_outcome inv (ending_of (process w inv (fs st1))) in
    exists b,
      match
        (let* dis := subprocess_run w inv in
         if (returncode dis =? 0)%Z
         then ret (<[py "ccc" := Success (clean_disassembly (stdout dis))]>
                     results)
         else ret (<[py "ccc" := Failure (py "Objdump failed: " ++ stderr dis)]>
                     results)) st1
      with
      | (Raises e, st') =>
          ret (<[py "ccc" := Failure (str_exception w e)]> results) st'
      | r => r
      end =
        (Returns (<[py "ccc" := b]> results),
         {| fs := effect (process w inv (fs st1)) (fs st1);
            launched := launched st1 ++ [(inv, o_d)];
            console := console st1 |})
      /\ (forall e, o_d = Raises e -> b = Failure (str_exception w e))
      /\ (forall dis, o_d = Returns dis ->
            b = if (returncode dis =? 0)%Z
                then Success (clean_disassembly (stdout dis))
                else Failure (py "Objdump failed: " ++ stderr dis))).
  { intros cmd inv o_d. unfold bind. rewrite subprocess_run_eq. fold inv o_d.
    pose proof (run_outcome_bounded inv 5
                  (ending_of (process w inv (fs st1))) eq_refl) as Hb.
    fold o_d in Hb.
    destruct o_d as [dis|e|]; [| |congruence].
    - destruct (returncode dis =? 0)%Z eqn:Erc; unfold ret;
        eexists; (split; [reflexivity|]); split;
        intros ? [= <-]; rewrite ?Erc; reflexivity.
    - unfold ret. eexists. split; [reflexivity|].
      split; [intros ? [= <-]; reflexivity|discriminate]. }
  unfold guarded, disassemble, select_objdump, try_except, bind.
  rewrite subprocess_run_eq. fold o_p. fold st1.
  destruct o_p as [ver|e|].
  - exact (Hrun (py "x86_64-linux-gnu-objdump")).
  - exact (Hrun (py "objdump")).
  - reflexivity.
Qed.

(** Whatever happens, the CCC block starts with CCC's call and only adds
    calls. *)
Lemma ccc_block_calls w temp_dir src results st :
  exists o_c rest,
    launched (snd (ccc_block w temp_dir src results st)) =
      launched st
        ++ (ccc_invocation w temp_dir src (path_join temp_dir (py "ccc_out")),
            o_c) :: rest.
Proof.
  pose proof (ccc_block_run w temp_dir src results st) as H. cbv zeta in H.
  destruct (run_outcome _ _) as [proc|e|] eqn:Ho; [| |contradiction].
  - destruct (returncode proc =? 0)%Z;
      [destruct (bool_decide _)|]; try (rewrite H; eexists _, _; reflexivity).
    rewrite H.
    match goal with
    | |- context [try_except _ _ ?s] =>
        pose proof (disassemble_run w (path_join temp_dir (py "ccc_out"))
                      results s) as D
    end.
    cbv zeta in D. cbn [fs launched] in D.
    destruct (run_outcome probe_invocation _) as [ver|e|] eqn:Hp.
    + destruct D as (b & -> & _). cbn [snd launched].
      rewrite <- !app_assoc. eexists _, _; reflexivity.
    + destruct D as (b & -> & _). cbn [snd launched].
      rewrite <- !app_assoc. eexists _, _; reflexivity.
    + rewrite D. cbn [snd launched].
      rewrite <- !app_assoc. eexists _, _; reflexivity.
  - rewrite H. eexists _, _; reflexivity.
Qed.

(** ** The handler *)

(** The directory [tempfile] makes depends on the files only. *)
Lemma workspace_fs w st st' :
  fs st = fs st' -> workspace w st = workspace w st'.
Proof.
  unfold workspace, mkdtemp. intros <-.
  destruct (mkdir_error w); [reflexivity|].
  destruct (List.find _ (random_names w)); reflexivity.
Qed.

(** When the run is set up, [compile_code] is the two blocks run one after
    the other on the state that holds the directory, the source file and the
    printed line, and then the clean-up. *)
Lemma compile_code_set_up w data st temp_dir :
  set_up w data st temp_dir ->
  compile_code w data st =
    match
      (let* results :=
         gcc_block w (get data (py "opt") (py "-O0"))
           (path_join temp_dir (py "test.c")) ∅
       in ccc_block w temp_dir (path_join temp_dir (py "test.c")) results)
        {| fs := <[path_join temp_dir (py "test.c") :=
                     File (get data (py "code") (py ""))]>
                   (<[temp_dir := Dir]> (fs st));
           launched := launched st;
           console :=
             console st ++ [level_line (get data (py "opt") (py "-O0"))] |}
    with
    | (Blocks, st4) => (Blocks, st4)
    | (r, st4) =>
        (r, {| fs := rmtree temp_dir (fs st4); launched := launched st4;
               console := console st4 |})
    end.
Proof.
  intros (Hcode & Hprint & Hws & Hopen & Hwrite).
  unfold compile_code. rewrite Hcode. cbn [negb].
  unfold bind at 1. unfold print_line. rewrite Hprint.
  unfold with_TemporaryDirectory.
  rewrite (workspace_fs w st
             {| fs := fs st; launched := launched st;
                console :=
                  console st
                    ++ [level_line (get data (py "opt") (py "-O0"))] |}
             eq_refl) in Hws.
  rewrite (proj1 (mkdtemp_workspace w
                    {| fs := fs st; launched := launched st;
                       console :=
                         console st
                           ++ [level_line (get data (py "opt") (py "-O0"))] |}
                    temp_dir Hws)).
  unfold compile_in. unfold bind at 1. unfold write_file.
  rewrite Hopen, Hwrite. cbn [fs launched console].
  unfold bind.
  destruct (gcc_block _ _ _ _ _) as [[r1|e1|] st3]; [|reflexivity..].
  destruct (ccc_block _ _ _ _ _) as [[r2|e2|] st4]; reflexivity.
Qed.

(** When the run is set up, its calls start with GCC's and CCC's, in that
    order. *)
Lemma compile_code_calls w data st temp_dir :
  set_up w data st temp_dir ->
  exists o_a o_c rest,
    launched (snd (compile_code w data st)) =
      launched st
        ++ (gcc_invocation (get data (py "opt") (py "-O0"))
              (path_join temp_dir (py "test.c")), o_a)
        :: (ccc_invocation w temp_dir (path_join temp_dir (py "test.c"))
              (path_join temp_dir (py "ccc_out")), o_c)
        :: rest.
Proof.
  intros Hset.
  rewrite (compile_code_set_up w data st temp_dir Hset).
  unfold bind.
  match goal with
  | |- context [gcc_block ?w ?o ?s ?r ?st] =>
      destruct (gcc_block_run w o s r st) as (a & o_a & -> & _)
  end.
  match goal with
  | |- context [ccc_block ?w ?t ?s ?r ?st] =>
      destruct (ccc_block_calls w t s r st) as (o_c & rest & Hc);
      destruct (ccc_block w t s r st) as [[r2|e2|] st4]
  end; cbn [snd launched] in *; rewrite Hc, <- app_assoc;
    eexists _, _, _; reflexivity.
Qed.

(** ** The claims *)

(** C4. When the source text is empty or white space only (a missing ['code']
    field counts as empty), [compile_code] returns a failure with the message
    "No code" for both backends and leaves the state as it was: no call of
    [subprocess.run] is made and no directory is created. *)
Theorem no_code_fast_path w data st :
  blank (get data (py "code") (py "")) = true ->
  compile_code w data st =
    (Returns (<[py "gcc" := Failure (py "No code")]>
                (<[py "ccc" := Failure (py "No code")]> ∅)),
     st).
Proof.
  intros H. unfold compile_code. rewrite truthy_strip, H. reflexivity.
Qed.

Lemma no_code_fast_path_witness :
  blank (get only_spaces (py "code") (py "")) = true
  /\ compile_code all_well only_spaces fresh =
       (Returns (<[py "gcc" := Failure (py "No code")]>
                   (<[py "ccc" := Failure (py "No code")]> ∅)),
        fresh).
Proof.
  split; [vm_compute; reflexivity|].
  apply no_code_fast_path. vm_compute. reflexivity.
Defined.

(** CCC came back with exit status 0 and its output file is not there: the
    block stores "Binary missing" and makes no further call. *)
Lemma ccc_block_binary_missing w temp_dir src results st proc st1 :
  subprocess_run w
    (ccc_invocation w temp_dir src (path_join temp_dir (py "ccc_out"))) st
    = (Returns proc, st1) ->
  returncode proc = 0%Z ->
  fs st1 !! path_join temp_dir (py "ccc_out") = None ->
  ccc_block w temp_dir src results st =
    (Returns (<[py "ccc" := Failure (py "Binary missing")]> results), st1).
Proof.
  rewrite subprocess_run_eq. intros Hrun Hrc Hfs.
  pose proof (f_equal fst Hrun) as Ho. pose proof (f_equal snd Hrun) as Hst.
  cbn [fst snd] in Ho, Hst. subst st1.
  pose proof (ccc_block_run w temp_dir src results st) as H. cbv zeta in H.
  rewrite Ho in H. rewrite Hrc in H. cbn [Z.eqb] in H.
  rewrite Ho in Hfs |- *.
  rewrite bool_decide_eq_false_2 in H; [exact H|].
  rewrite Hfs. intros [x Hx]. discriminate.
Qed.

(** C6 (amended). The disassembly first probes the cross tool
    [x86_64-linux-gnu-objdump --version]. When the probe comes back, with
    whatever exit status, the binary is disassembled with
    [x86_64-linux-gnu-objdump]; when the probe raises (the tool is not
    installed or cannot be started), the binary is disassembled with the
    system [objdump]. *)
Theorem objdump_selection w out_bin results st :
  match run_outcome probe_invocation
          (ending_of (process w probe_invocation (fs st))) with
  | Returns version =>
      exists o,
        launched (snd (disassemble w out_bin results st)) =
          launched st
            ++ [(probe_invocation, Returns version);
                (objdump_invocation (py "x86_64-linux-gnu-objdump") out_bin, o)]
  | Raises e =>
      exists o,
        launched (snd (disassemble w out_bin results st)) =
          launched st
            ++ [(probe_invocation, Raises e);
                (objdump_invocation (py "objdump") out_bin, o)]
  | Blocks =>
      launched (snd (disassemble w out_bin results st)) =
        launched st ++ [(probe_invocation, Blocks)]
  end.
Proof.
  unfold disassemble, select_objdump, try_except, bind.
  rewrite subprocess_run_eq.
  destruct (run_outcome probe_invocation _) as [version|e|]; [| |reflexivity].
  - unfold ret at 1. rewrite subprocess_run_eq. cbn [fs launched].
    destruct (run_outcome (objdump_invocation _ _) _) as [dis|e'|];
      [destruct (returncode dis =? 0)%Z|..];
      cbn [snd launched ret]; unfold ret; cbn [snd launched];
      rewrite <- app_assoc; eexists; reflexivity.
  - unfold ret at 1. rewrite subprocess_run_eq. cbn [fs launched].
    destruct (run_outcome (objdump_invocation _ _) _) as [dis|e'|];
      [destruct (returncode dis =? 0)%Z|..];
      cbn [snd launched ret]; unfold ret; cbn [snd launched];
      rewrite <- app_assoc; eexists; reflexivity.
Qed.

(** For CCC, a non-zero exit is stored as a failure whose message is the
    standard error text, else the standard output text, else "Unknown CCC
    Error", and is never empty. *)
Lemma ccc_failure_message w temp_dir src results st proc st1 :
  subprocess_run w
    (ccc_invocation w temp_dir src (path_join temp_dir (py "ccc_out"))) st
    = (Returns proc, st1) ->
  returncode proc <> 0%Z ->
  exists m,
    ccc_block w temp_dir src results st =
      (Returns (<[py "ccc" := Failure m]> results), st1)
    /\ m = (if truthy (stderr proc) then stderr proc
            else if truthy (stdout proc) then stdout proc
            else py "Unknown CCC Error")
    /\ m <> [].
Proof.
  rewrite subprocess_run_eq. intros Hrun Hrc.
  pose proof (f_equal fst Hrun) as Ho. pose proof (f_equal snd Hrun) as Hst.
  cbn [fst snd] in Ho, Hst. subst st1.
  pose proof (ccc_block_run w temp_dir src results st) as H. cbv zeta in H.
  rewrite Ho in H |- *. apply Z.eqb_neq in Hrc. rewrite Hrc in H.
  eexists. split; [exact H|]. split; [reflexivity|].
  destruct (stderr proc); [destruct (stdout proc)|]; cbn [truthy];
    [vm_compute|..]; discriminate.
Qed.

(** C1 on the code: GCC is killed by a signal, exits with -9 and leaves both
    streams empty; the message stored under ["gcc"] is the empty string,
    where the claim has the generic message. CCC's block, on the same
    request, does store a message. *)
Theorem gcc_failure_message_empty :
  fst (compile_code gcc_killed square_O2 fresh) =
    Returns (<[py "gcc" := Failure []]>
               (<[py "ccc" := Failure (py "error: expected ';'")]> ∅))
  /\ launched (snd (compile_code gcc_killed square_O2 fresh)) !! 0%nat =
       Some (gcc_invocation (py "-O2") (py "/dev/shm/tmpk3x9q_ab/test.c"),
             Returns {| returncode := -9; stdout := []; stderr := [] |}).
Proof. split; vm_compute; reflexivity. Qed.

(** C5 on the code: the probe is called without a timeout, and on a machine
    where the cross objdump never exits the request never comes back; the
    last call made is the probe, still waiting. The three other calls carry
    [timeout=5]. *)
Theorem probe_call_unbounded :
  timeout probe_invocation = None
  /\ fst (compile_code probe_hangs square_O2 fresh) = Blocks
  /\ last (launched (snd (compile_code probe_hangs square_O2 fresh))) =
       Some (probe_invocation, Blocks)
  /\ (forall w opt_level temp_dir src out_bin objdump_cmd,
         timeout (gcc_invocation opt_level src) = Some 5
         /\ timeout (ccc_invocation w temp_dir src out_bin) = Some 5
         /\ timeout (objdump_invocation objdump_cmd out_bin) = Some 5).
Proof.
  split; [reflexivity|]. split; [vm_compute; reflexivity|].
  split; [vm_compute; reflexivity|]. intros; repeat split.
Qed.

(** * Further properties of the handler *)

(** ** The paths of a run *)

(** The CCC block takes one of three paths: it ends after CCC's call (an
    exception, a non-zero exit or a missing binary), it blocks in the probe,
    or it runs the probe and the disassembler. *)
Lemma ccc_block_paths w temp_dir src results st :
  exists o_c,
    o_c = run_outcome
            (ccc_invocation w temp_dir src (path_join temp_dir (py "ccc_out")))
            (ending_of
               (process w
                  (ccc_invocation w temp_dir src
                     (path_join temp_dir (py "ccc_out"))) (fs st)))
    /\ ((exists b st',
           ccc_block w temp_dir src results st =
             (Returns (<[py "ccc" := b]> results), st')
           /\ launched st' =
                launched st
                  ++ [(ccc_invocation w temp_dir src
                         (path_join temp_dir (py "ccc_out")), o_c)]
           /\ ((exists e, o_c = Raises e /\ b = Failure (str_exception w e))
               \/ (exists proc,
                      o_c = Returns proc /\ returncode proc <> 0%Z
                      /\ b = Failure
                               (if truthy (stderr proc) then stderr proc
                                else if truthy (stdout proc) then stdout proc
                                else py "Unknown CCC Error"))
               \/ (exists proc,
                      o_c = Returns proc /\ returncode proc = 0%Z
                      /\ b = Failure (py "Binary missing"))))
        \/ (exists proc st',
              o_c = Returns proc /\ returncode proc = 0%Z
              /\ ccc_block w temp_dir src results st = (Blocks, st')
              /\ launched st' =
                   launched st
                     ++ [(ccc_invocation w temp_dir src
                            (path_join temp_dir (py "ccc_out")), o_c);
                         (probe_invocation, Blocks)])
        \/ (exists proc o_p o_d b st',
              o_c = Returns proc /\ returncode proc = 0%Z
              /\ o_p <> Blocks
              /\ ccc_block w temp_dir src results st =
                   (Returns (<[py "ccc" := b]> results), st')
              /\ launched st' =
                   launched st
                     ++ [(ccc_invocation w temp_dir src
                            (path_join temp_dir (py "ccc_out")), o_c);
                         (probe_invocation, o_p);
                         (objdump_invocation
                            match o_p with
                            | Returns _ => py "x86_64-linux-gnu-objdump"
                            | _ => py "objdump"
                            end
                            (path_join temp_dir (py "ccc_out")), o_d)]
              /\ o_d <> Blocks
              /\ (forall e, o_d = Raises e -> b = Failure (str_exception w e))
              /\ (forall dis, o_d = Returns dis ->
                    b = if (returncode dis =? 0)%Z
                        then Success (clean_disassembly (stdout dis))
                        else Failure (py "Objdump failed: " ++ stderr dis)))).
Proof.
  eexists. split; [reflexivity|].
  pose proof (ccc_block_run w temp_dir src results st) as H. cbv zeta in H.
  destruct (run_outcome _ _) as [proc|e|] eqn:Ho; [| |contradiction].
  - destruct (returncode proc =? 0)%Z eqn:Erc;
      [destruct (bool_decide _)|].
    + apply Z.eqb_eq in Erc.
      match type of H with
      | _ = try_except _ _ ?s =>
          pose proof (disassemble_run w (path_join temp_dir (py "ccc_out"))
                        results s) as D
      end.
      cbv zeta in D. cbn [fs launched] in D.
      destruct (run_outcome probe_invocation _) as [ver|e|] eqn:Hp.
      * right. right. destruct D as (b & D & Dr & Dd). rewrite D in H.
        exists proc, (Returns ver). eexists _, b, _.
        split; [reflexivity|]. split; [exact Erc|].
        split; [discriminate|]. split; [exact H|].
        split; [cbn [launched]; rewrite <- !app_assoc; reflexivity|].
        split; [apply (run_outcome_bounded _ 5); reflexivity|].
        split; [exact Dr|exact Dd].
      * right. right. destruct D as (b & D & Dr & Dd). rewrite D in H.
        exists proc, (Raises e). eexists _, b, _.
        split; [reflexivity|]. split; [exact Erc|].
        split; [discriminate|]. split; [exact H|].
        split; [cbn [launched]; rewrite <- !app_assoc; reflexivity|].
        split; [apply (run_outcome_bounded _ 5); reflexivity|].
        split; [exact Dr|exact Dd].
      * right. left. rewrite D in H. exists proc. eexists.
        split; [reflexivity|]. split; [exact Erc|]. split; [exact H|].
        cbn [launched]. rewrite <- !app_assoc. reflexivity.
    + apply Z.eqb_eq in Erc. left. eexists _, _. split; [exact H|].
      split; [reflexivity|]. right. right. exists proc. auto.
    + apply Z.eqb_neq in Erc. left. eexists _, _. split; [exact H|].
      split; [reflexivity|]. right. left. exists proc. auto.
  - left. eexists _, _. split; [exact H|]. split; [reflexivity|].
    left. exists e. auto.
Qed.

(** The GCC block by the outcome of GCC's call. *)
Lemma gcc_block_outcome w opt_level src results st :
  let inv := gcc_invocation opt_level src in
  let o := run_outcome inv (ending_of (process w inv (fs st))) in
  exists a,
    gcc_block w opt_level src results st =
      (Returns (<[py "gcc" := a]> results),
       {| fs := effect (process w inv (fs st)) (fs st);
          launched := launched st ++ [(inv, o)];
          console := console st |})
    /\ (forall e, o = Raises e -> a = Failure (str_exception w e))
    /\ (forall proc, o = Returns proc ->
          a = if (returncode proc =? 0)%Z then Success (stdout proc)
              else Failure (stderr proc)).
Proof.
  intros inv o.
  unfold gcc_block, gcc_suite, try_except, bind. rewrite subprocess_run_eq.
  fold inv. fold o.
  pose proof (run_outcome_bounded inv 5
                (ending_of (process w inv (fs st))) eq_refl) as Hb.
  fold o in Hb.
  destruct o as [proc|e|]; [| |congruence].
  - destruct (returncode proc =? 0)%Z eqn:Erc; unfold ret;
      eexists; (split; [reflexivity|]); split;
      intros ? [= <-]; rewrite ?Erc; reflexivity.
  - unfold ret. eexists. split; [reflexivity|].
    split; [intros ? [= <-]; reflexivity|discriminate].
Qed.

(** A run that reaches the compilers takes one of three paths: it returns
    after GCC's and CCC's calls, it blocks in the probe after them, or it
    returns after the four calls. The value under ["gcc"] follows from GCC's
    call, the value under ["ccc"] from the last call of CCC's path. *)
Lemma compile_code_paths w data st temp_dir :
  let src := path_join temp_dir (py "test.c") in
  let out_bin := path_join temp_dir (py "ccc_out") in
  let g_inv := gcc_invocation (get data (py "opt") (py "-O0")) src in
  let c_inv := ccc_invocation w temp_dir src out_bin in
  set_up w data st temp_dir ->
  exists a o_a o_c,
    o_a = run_outcome g_inv
            (ending_of
               (process w g_inv
                  (<[src := File (get data (py "code") (py ""))]>
                     (<[temp_dir := Dir]> (fs st)))))
    /\ (forall e, o_a = Raises e -> a = Failure (str_exception w e))
    /\ (forall proc, o_a = Returns proc ->
          a = if (returncode proc =? 0)%Z then Success (stdout proc)
              else Failure (stderr proc))
    /\ (exists f, o_c = run_outcome c_inv (ending_of (process w c_inv f)))
    /\ ((exists b st',
           compile_code w data st =
             (Returns (<[py "ccc" := b]> (<[py "gcc" := a]> ∅)), st')
           /\ launched st' = launched st ++ [(g_inv, o_a); (c_inv, o_c)]
           /\ ((exists e, o_c = Raises e /\ b = Failure (str_exception w e))
               \/ (exists proc,
                      o_c = Returns proc /\ returncode proc <> 0%Z
                      /\ b = Failure
                               (if truthy (stderr proc) then stderr proc
                                else if truthy (stdout proc) then stdout proc
                                else py "Unknown CCC Error"))
               \/ (exists proc,
                      o_c = Returns proc /\ returncode proc = 0%Z
                      /\ b = Failure (py "Binary missing"))))
        \/ (exists proc st',
              o_c = Returns proc /\ returncode proc = 0%Z
              /\ compile_code w data st = (Blocks, st')
              /\ launched st' =
                   launched st
                     ++ [(g_inv, o_a); (c_inv, o_c); (probe_invocation, Blocks)])
        \/ (exists proc o_p o_d b st',
              o_c = Returns proc /\ returncode proc = 0%Z
              /\ o_p <> Blocks
              /\ compile_code w data st =
                   (Returns (<[py "ccc" := b]> (<[py "gcc" := a]> ∅)), st')
              /\ launched st' =
                   launched st
                     ++ [(g_inv, o_a); (c_inv, o_c); (probe_invocation, o_p);
                         (objdump_invocation
                            match o_p with
                            | Returns _ => py "x86_64-linux-gnu-objdump"
                            | _ => py "objdump"
                            end out_bin, o_d)]
              /\ o_d <> Blocks
              /\ (forall e, o_d = Raises e -> b = Failure (str_exception w e))
              /\ (forall dis, o_d = Returns dis ->
                    b = if (returncode dis =? 0)%Z
                        then Success (clean_disassembly (stdout dis))
                        else Failure (py "Objdump failed: " ++ stderr dis)))).
Proof.
  intros src out_bin g_inv c_inv Hset.
  rewrite (compile_code_set_up w data st temp_dir Hset).
  fold src. unfold bind.
  destruct (gcc_block_outcome w (get data (py "opt") (py "-O0")) src ∅
              {| fs := <[src := File (get data (py "code") (py ""))]>
                         (<[temp_dir := Dir]> (fs st));
                 launched := launched st;
                 console :=
                   console st
                     ++ [level_line (get data (py "opt") (py "-O0"))] |})
    as (a & Hg & Ha1 & Ha2).
  cbv zeta in Hg, Ha1, Ha2. cbn [fs launched] in Hg, Ha1, Ha2.
  fold g_inv in Hg, Ha1, Ha2. fold g_inv. rewrite Hg.
  exists a. eexists. 
  match goal with
  | |- context [ccc_block ?w ?t ?s ?r ?st] =>
      destruct (ccc_block_paths w t s r st) as (o_c & Hoc & Hc)
  end.
  fold out_bin in Hc. fold c_inv in Hc. cbn [launched] in Hc.
  exists o_c. split; [reflexivity|]. split; [exact Ha1|]. split; [exact Ha2|].
  split; [eexists; exact Hoc|].
  destruct Hc as [(b & st' & Hb & Hl & Hcase)
                 |[(proc & st' & Ho & Hrc & Hb & Hl)
                  |(proc & o_p & o_d & b & st' & Ho & Hrc & Hp & Hb & Hl
                    & Hod & Hd1 & Hd2)]]; rewrite Hb.
  - left. exists b. eexists. split; [reflexivity|]. cbn [launched].
    split; [rewrite Hl, <- app_assoc; reflexivity|]. exact Hcase.
  - right. left. exists proc. eexists. split; [exact Ho|].
    split; [exact Hrc|]. split; [reflexivity|].
    rewrite Hl, <- app_assoc. reflexivity.
  - right. right. exists proc, o_p, o_d, b. eexists.
    split; [exact Ho|]. split; [exact Hrc|]. split; [exact Hp|].
    split; [reflexivity|]. cbn [launched].
    split; [rewrite Hl, <- app_assoc; reflexivity|]. auto.
Qed.

(** A run that does not reach the compilers: the source is blank, the level
    cannot be printed, no directory can be made, or the source file cannot
    be opened or written. Otherwise the run is set up. *)
Lemma compile_code_stops_early w data st :
  let line := level_line (get data (py "opt") (py "-O0")) in
  (blank (get data (py "code") (py "")) = true
   /\ compile_code w data st =
        (Returns (<[py "gcc" := Failure (py "No code")]>
                    (<[py "ccc" := Failure (py "No code")]> ∅)), st))
  \/ (exists m,
        truthy (strip (get data (py "code") (py ""))) = true
        /\ print_error w line = Some m
        /\ compile_code w data st = (Raises (OtherError m), st))
  \/ (exists m,
        truthy (strip (get data (py "code") (py ""))) = true
        /\ workspace w st = None
        /\ compile_code w data st =
             (Raises (OtherError m),
              {| fs := fs st; launched := launched st;
                 console := console st ++ [line] |}))
  \/ (exists temp_dir,
        truthy (strip (get data (py "code") (py ""))) = true
        /\ workspace w st = Some temp_dir
        /\ ((exists m,
               compile_code w data st =
                 (Raises (OtherError m),
                  {| fs := rmtree temp_dir (<[temp_dir := Dir]> (fs st));
                     launched := launched st;
                     console := console st ++ [line] |}))
            \/ (exists m,
                  compile_code w data st =
                    (Raises (OtherError m),
                     {| fs := rmtree temp_dir
                                (<[path_join temp_dir (py "test.c") :=
                                     File []]>
                                   (<[temp_dir := Dir]> (fs st)));
                        launched := launched st;
                        console := console st ++ [line] |}))
            \/ set_up w data st temp_dir)).
Proof.
  intros line.
  destruct (blank (get data (py "code") (py ""))) eqn:Hb.
  { left. split; [reflexivity|].
    unfold compile_code. rewrite truthy_strip, Hb. reflexivity. }
  right.
  assert (Hcode : truthy (strip (get data (py "code") (py ""))) = true)
    by (rewrite truthy_strip, Hb; reflexivity).
  destruct (print_error w line) as [m|] eqn:Hprint.
  { left. exists m. split; [exact Hcode|]. split; [reflexivity|].
    unfold compile_code. rewrite Hcode. cbn [negb].
    unfold bind at 1. unfold print_line. fold line. rewrite Hprint.
    reflexivity. }
  right.
  assert (Hrun : compile_code w data st =
                 with_TemporaryDirectory w TEMP_DIR
                   (compile_in w (get data (py "code") (py ""))
                      (get data (py "opt") (py "-O0")))
                   {| fs := fs st; launched := launched st;
                      console := console st ++ [line] |}).
  { unfold compile_code. rewrite Hcode. cbn [negb].
    unfold bind at 1. unfold print_line. fold line. rewrite Hprint.
    reflexivity. }
  destruct (workspace w st) as [temp_dir|] eqn:Hws.
  - right. exists temp_dir. split; [exact Hcode|]. split; [reflexivity|].
    pose proof Hws as Hws'.
    rewrite (workspace_fs w st
               {| fs := fs st; launched := launched st;
                  console := console st ++ [line] |} eq_refl) in Hws'.
    destruct (mkdtemp_workspace w _ temp_dir Hws') as [Hmk _].
    rewrite Hrun. unfold with_TemporaryDirectory. rewrite Hmk.
    unfold compile_in. unfold bind at 1. unfold write_file.
    destruct (open_error w) as [m|] eqn:Hopen.
    { left. exists m. reflexivity. }
    destruct (write_error w (get data (py "code") (py ""))) as [m|] eqn:Hwrite.
    { right. left. exists m. reflexivity. }
    right. right. repeat split; assumption.
  - left. rewrite Hrun. unfold with_TemporaryDirectory.
    rewrite (workspace_fs w st
               {| fs := fs st; launched := launched st;
                  console := console st ++ [line] |} eq_refl) in Hws.
    revert Hws. unfold workspace, mkdtemp. cbn [fs].
    destruct (mkdir_error w) as [m|].
    { intros _. exists m. repeat split; assumption || reflexivity. }
    destruct (List.find _ (random_names w)); [discriminate|].
    intros _. eexists. split; [exact Hcode|]. split; reflexivity.
Qed.

Lemma key_gcc_ccc : py "gcc" <> py "ccc".
Proof. intros H. vm_compute in H. discriminate. Qed.

Lemma returns_inj {A} (x y : A) : Returns x = Returns y -> x = y.
Proof. congruence. Qed.

(** ** What every run gives back *)

(** X1. Whenever [compile_code] returns, the dict it returns has an entry
    under ["gcc"] and an entry under ["ccc"] and no other entry. *)
Theorem response_has_both_entries w data st r :
  fst (compile_code w data st) = Returns r ->
  exists a b, r = <[py "gcc" := a]> (<[py "ccc" := b]> ∅).
Proof.
  intros Hr.
  destruct (compile_code_stops_early w data st)
    as [[_ H]|[(m & _ & _ & H)|[(m & _ & _ & H)
       |(temp_dir & _ & _ & [(m & H)|[(m & H)|Hset]])]]];
    try (rewrite H in Hr; discriminate).
  - rewrite H in Hr. apply returns_inj in Hr. subst r. eauto.
  - destruct (compile_code_paths w data st temp_dir Hset)
      as (a & o_a & o_c & _ & _ & _ & _ & Hp).
    destruct Hp as [(b & st' & H & _)
                   |[(proc & st' & _ & _ & H & _)
                    |(proc & o_p & o_d & b & st' & _ & _ & _ & H & _)]];
      rewrite H in Hr; [|discriminate|];
      apply returns_inj in Hr; subst r; exists a, b;
      apply insert_insert_ne; intros E; exact (key_gcc_ccc (eq_sym E)).
Qed.

Lemma response_has_both_entries_witness :
  fst (compile_code all_well square_O2 fresh) =
    Returns (<[py "gcc" := Success gcc_asm]>
               (<[py "ccc" := Success (TAB :: py "mov eax, 0")]> ∅))
  /\ exists a b,
       <[py "gcc" := Success gcc_asm]>
         (<[py "ccc" := Success (TAB :: py "mov eax, 0")]>
            (∅ : gmap (list N) backend_result))
       = <[py "gcc" := a]> (<[py "ccc" := b]> ∅).
Proof.
  assert (H : fst (compile_code all_well square_O2 fresh) =
                Returns (<[py "gcc" := Success gcc_asm]>
                           (<[py "ccc" := Success (TAB :: py "mov eax, 0")]> ∅)))
    by (vm_compute; reflexivity).
  split; [exact H|].
  exact (response_has_both_entries all_well square_O2 fresh _ H).
Defined.

(** X3. The only call [compile_code] can wait on for ever is the probe of the
    cross objdump: when a run blocks, GCC's and CCC's calls have come back
    and the probe is the third and last call made. *)
Theorem blocks_only_in_probe w data st :
  fst (compile_code w data st) = Blocks ->
  exists g c,
    launched (snd (compile_code w data st)) =
      launched st ++ [g; c; (probe_invocation, Blocks)]
    /\ snd g <> Blocks /\ snd c <> Blocks.
Proof.
  intros Hb.
  destruct (compile_code_stops_early w data st)
    as [[_ H]|[(m & _ & _ & H)|[(m & _ & _ & H)
       |(temp_dir & _ & _ & [(m & H)|[(m & H)|Hset]])]]];
    try (rewrite H in Hb; discriminate).
  destruct (compile_code_paths w data st temp_dir Hset)
    as (a & o_a & o_c & Hoa & _ & _ & _ & Hp).
  destruct Hp as [(b & st' & H & _)
                 |[(proc & st' & Hoc & _ & H & Hl)
                  |(proc & o_p & o_d & b & st' & _ & _ & _ & H & _)]];
    [rewrite H in Hb; discriminate| |rewrite H in Hb; discriminate].
  rewrite H. cbn [snd]. eexists _, _. split; [exact Hl|]. cbn [snd].
  split; [|rewrite Hoc; discriminate].
  rewrite Hoa. apply (run_outcome_bounded _ 5). reflexivity.
Qed.

Lemma blocks_only_in_probe_witness :
  fst (compile_code probe_hangs square_O2 fresh) = Blocks
  /\ exists g c,
       launched (snd (compile_code probe_hangs square_O2 fresh)) =
         launched fresh ++ [g; c; (probe_invocation, Blocks)]
       /\ snd g <> Blocks /\ snd c <> Blocks.
Proof.
  assert (H : fst (compile_code probe_hangs square_O2 fresh) = Blocks)
    by (vm_compute; reflexivity).
  split; [exact H|].
  exact (blocks_only_in_probe probe_hangs square_O2 fresh H).
Defined.

(** A run that returns with a source that is not blank was set up. *)
Lemma returned_run_set_up w data st temp_dir r :
  fst (compile_code w data st) = Returns r ->
  truthy (strip (get data (py "code") (py ""))) = true ->
  workspace w st = Some temp_dir ->
  set_up w data st temp_dir.
Proof.
  intros Hr Hcode Hws.
  destruct (compile_code_stops_early w data st)
    as [[Hb _]|[(m & _ & _ & H)|[(m & _ & Hn & _)
       |(temp_dir' & _ & Hws' & [(m & H)|[(m & H)|Hset]])]]].
  - rewrite truthy_strip, Hb in Hcode. discriminate.
  - rewrite H in Hr. discriminate.
  - congruence.
  - rewrite H in Hr. discriminate.
  - rewrite H in Hr. discriminate.
  - assert (E : temp_dir' = temp_dir) by congruence.
    subst temp_dir'. exact Hset.
Qed.

(** A run that makes a call was set up. *)
Lemma called_run_set_up w data st i c :
  launched (snd (compile_code w data st)) !! (length (launched st) + i)%nat
    = Some c ->
  exists temp_dir, set_up w data st temp_dir.
Proof.
  intros Hc.
  assert (Hno : launched (snd (compile_code w data st)) = launched st -> False).
  { intros E. rewrite E in Hc. apply lookup_lt_Some in Hc. lia. }
  destruct (compile_code_stops_early w data st)
    as [[_ H]|[(m & _ & _ & H)|[(m & _ & _ & H)
       |(temp_dir & _ & _ & [(m & H)|[(m & H)|Hset]])]]];
    try (exfalso; apply Hno; rewrite H; reflexivity).
  exists temp_dir. exact Hset.
Qed.

Lemma outlives_timeout inv t e :
  timeout inv = Some t -> outlives t e ->
  run_outcome inv e = Raises (TimeoutExpired (argv inv) t).
Proof.
  intros Ht Ho. destruct e as [rc out err d| |m]; [| |contradiction].
  - exact (proj2 (run_outcome_timeout inv t rc out err d Ht) Ho).
  - exact (proj1 (run_outcome_timeout inv t 0%Z [] [] 0 Ht)).
Qed.

(** ** The calls of a run *)

(** X4. A run starts at most four processes, each once and in this order:
    GCC, CCC, the probe, and the objdump the probe selected. Either none is
    started, or GCC and CCC both are. *)
Theorem calls_of_a_run w data st :
  exists calls,
    launched (snd (compile_code w data st)) = launched st ++ calls
    /\ (calls = []
        \/ exists temp_dir objdump_cmd,
             workspace w st = Some temp_dir
             /\ (objdump_cmd = py "x86_64-linux-gnu-objdump"
                 \/ objdump_cmd = py "objdump")
             /\ (2 <= length calls)%nat
             /\ map fst calls `prefix_of`
                  [gcc_invocation (get data (py "opt") (py "-O0"))
                     (path_join temp_dir (py "test.c"));
                   ccc_invocation w temp_dir (path_join temp_dir (py "test.c"))
                     (path_join temp_dir (py "ccc_out"));
                   probe_invocation;
                   objdump_invocation objdump_cmd
                     (path_join temp_dir (py "ccc_out"))]).
Proof.
  destruct (compile_code_stops_early w data st)
    as [[_ H]|[(m & _ & _ & H)|[(m & _ & _ & H)
       |(temp_dir & _ & Hws & [(m & H)|[(m & H)|Hset]])]]];
    try (exists []; rewrite H, app_nil_r; auto; fail).
  - destruct (compile_code_paths w data st temp_dir Hset)
      as (a & o_a & o_c & _ & _ & _ & _ & Hp).
    cbv zeta in Hp.
    destruct Hp as [(b & st' & H & Hl & _)
                   |[(proc & st' & _ & _ & H & Hl)
                    |(proc & o_p & o_d & b & st' & _ & _ & _ & H & Hl & _)]];
      rewrite H; cbn [snd]; eexists; (split; [exact Hl|]); right;
      exists temp_dir.
    + exists (py "objdump"). split; [exact Hws|]. split; [auto|].
      split; [cbn; lia|]. eexists [_; _]. reflexivity.
    + exists (py "objdump"). split; [exact Hws|]. split; [auto|].
      split; [cbn; lia|]. eexists [_]. reflexivity.
    + exists (match o_p with
              | Returns _ => py "x86_64-linux-gnu-objdump"
              | _ => py "objdump"
              end).
      split; [exact Hws|]. split; [destruct o_p; auto|].
      split; [cbn; lia|]. exists []. reflexivity.
Qed.

Lemma entries_lookup (a b : backend_result) :
  (<[py "ccc" := b]> (<[py "gcc" := a]> (∅ : gmap (list N) backend_result)))
    !! py "gcc" = Some a
  /\ (<[py "ccc" := b]> (<[py "gcc" := a]> (∅ : gmap (list N) backend_result)))
       !! py "ccc" = Some b.
Proof.
  split.
  - rewrite lookup_insert_ne by (intros E; exact (key_gcc_ccc (eq_sym E))).
    apply lookup_insert_eq.
  - apply lookup_insert_eq.
Qed.

(** ** When success is reported *)

(** X6. In a run that returns, GCC is reported as a success exactly when its
    call came back with exit status 0, and the assembly reported is then its
    standard output as it is; what it wrote to standard error, and whatever
    CCC did afterwards, change nothing. *)
Theorem gcc_success_iff_exit_zero w data st temp_dir r :
  fst (compile_code w data st) = Returns r ->
  truthy (strip (get data (py "code") (py ""))) = true ->
  workspace w st = Some temp_dir ->
  exists o_a rest,
    launched (snd (compile_code w data st)) =
      launched st
        ++ (gcc_invocation (get data (py "opt") (py "-O0"))
              (path_join temp_dir (py "test.c")), o_a) :: rest
    /\ forall asm,
         r !! py "gcc" = Some (Success asm)
         <-> exists proc,
               o_a = Returns proc /\ returncode proc = 0%Z
               /\ stdout proc = asm.
Proof.
  intros Hr Hcode Hws.
  pose proof (returned_run_set_up w data st temp_dir r Hr Hcode Hws) as Hset.
  destruct (compile_code_paths w data st temp_dir Hset)
    as (a & o_a & o_c & Hoa & Ha1 & Ha2 & _ & Hp).
  cbv zeta in Hoa, Hp.
  assert (Ha : forall asm,
             a = Success asm
             <-> exists proc,
                   o_a = Returns proc /\ returncode proc = 0%Z
                   /\ stdout proc = asm).
  { intros asm.
    assert (Hnb : o_a <> Blocks)
      by (rewrite Hoa; apply (run_outcome_bounded _ 5); reflexivity).
    destruct o_a as [proc|e|]; [| |congruence].
    - rewrite (Ha2 proc eq_refl).
      destruct (returncode proc =? 0)%Z eqn:Erc.
      + apply Z.eqb_eq in Erc. split.
        * intros [= <-]. exists proc. auto.
        * intros (proc' & Hp' & _ & <-). apply returns_inj in Hp'.
          subst proc'. reflexivity.
      + apply Z.eqb_neq in Erc. split; [discriminate|].
        intros (proc' & Hp' & Hrc & _). apply returns_inj in Hp'.
        subst proc'. contradiction.
    - rewrite (Ha1 e eq_refl). split; [discriminate|].
      intros (proc & Hp' & _). discriminate. }
  exists o_a.
  destruct Hp as [(b & st' & H & Hl & _)
                 |[(proc & st' & _ & _ & H & Hl)
                  |(proc & o_p & o_d & b & st' & _ & _ & _ & H & Hl & _)]];
    rewrite H in Hr |- *; [|discriminate|];
    apply returns_inj in Hr; subst r; cbn [snd];
    eexists; (split; [exact Hl|]); intros asm;
    rewrite (proj1 (entries_lookup a b)), <- Ha;
    split; congruence.
Qed.

Lemma gcc_success_iff_exit_zero_witness :
  (fst (compile_code no_binary square_O2 fresh) =
     Returns (<[py "gcc" := Success gcc_asm]>
                (<[py "ccc" := Failure (py "Binary missing")]> ∅))
   /\ truthy (strip (get square_O2 (py "code") (py ""))) = true
   /\ workspace no_binary fresh = Some (py "/dev/shm/tmpk3x9q_ab"))
  /\ exists o_a rest,
       launched (snd (compile_code no_binary square_O2 fresh)) =
         launched fresh
           ++ (gcc_invocation (get square_O2 (py "opt") (py "-O0"))
                 (path_join (py "/dev/shm/tmpk3x9q_ab") (py "test.c")), o_a)
           :: rest
       /\ forall asm,
            (<[py "gcc" := Success gcc_asm]>
               (<[py "ccc" := Failure (py "Binary missing")]>
                  (∅ : gmap (list N) backend_result)))
              !! py "gcc" = Some (Success asm)
            <-> exists proc,
                  o_a = Returns proc /\ returncode proc = 0%Z
                  /\ stdout proc = asm.
Proof.
  assert (H1 : fst (compile_code no_binary square_O2 fresh) =
                 Returns (<[py "gcc" := Success gcc_asm]>
                            (<[py "ccc" := Failure (py "Binary missing")]> ∅)))
    by (vm_compute; reflexivity).
  assert (H2 : truthy (strip (get square_O2 (py "code") (py ""))) = true)
    by (vm_compute; reflexivity).
  assert (H3 : workspace no_binary fresh = Some (py "/dev/shm/tmpk3x9q_ab"))
    by (vm_compute; reflexivity).
  split; [auto|].
  exact (gcc_success_iff_exit_zero no_binary square_O2 fresh _ _ H1 H2 H3).
Defined.

(** X7. In a run that returns, CCC is reported as a success only after all
    four calls: CCC's call returned with exit status 0, the probe came back,
    the disassembler returned with exit status 0, and the assembly reported
    is the cleaned standard output of the disassembler. *)
Theorem ccc_success_means_disassembled w data st temp_dir r asm :
  fst (compile_code w data st) = Returns r ->
  truthy (strip (get data (py "code") (py ""))) = true ->
  workspace w st = Some temp_dir ->
  r !! py "ccc" = Some (Success asm) ->
  exists g proc o_p objdump_cmd dis,
    launched (snd (compile_code w data st)) =
      launched st
        ++ [g;
            (ccc_invocation w temp_dir (path_join temp_dir (py "test.c"))
               (path_join temp_dir (py "ccc_out")), Returns proc);
            (probe_invocation, o_p);
            (objdump_invocation objdump_cmd
               (path_join temp_dir (py "ccc_out")), Returns dis)]
    /\ returncode proc = 0%Z
    /\ returncode dis = 0%Z
    /\ asm = clean_disassembly (stdout dis).
Proof.
  intros Hr Hcode Hws Hasm.
  pose proof (returned_run_set_up w data st temp_dir r Hr Hcode Hws) as Hset.
  destruct (compile_code_paths w data st temp_dir Hset)
    as (a & o_a & o_c & _ & _ & _ & _ & Hp).
  cbv zeta in Hp.
  destruct Hp as [(b & st' & H & Hl & Hcase)
                 |[(proc & st' & _ & _ & H & Hl)
                  |(proc & o_p & o_d & b & st' & Hoc & Hrc & _ & H & Hl
                    & Hod & Hd1 & Hd2)]];
    rewrite H in Hr |- *; [|discriminate|];
    apply returns_inj in Hr; subst r;
    rewrite (proj2 (entries_lookup a b)) in Hasm.
  - destruct Hcase as [(e & _ & Hb)|[(proc & _ & _ & Hb)|(proc & _ & _ & Hb)]];
      congruence.
  - destruct o_d as [dis|e|]; [| |congruence].
    + pose proof (Hd2 dis eq_refl) as Hb.
      destruct (returncode dis =? 0)%Z eqn:Erc; [|congruence].
      apply Z.eqb_eq in Erc. subst o_c.
      eexists _, proc, o_p, _, dis. cbn [snd].
      split; [exact Hl|]. split; [exact Hrc|]. split; [exact Erc|].
      congruence.
    + pose proof (Hd1 e eq_refl). congruence.
Qed.

Lemma ccc_success_means_disassembled_witness :
  (fst (compile_code all_well square_O2 fresh) =
     Returns (<[py "gcc" := Success gcc_asm]>
                (<[py "ccc" := Success (TAB :: py "mov eax, 0")]> ∅))
   /\ truthy (strip (get square_O2 (py "code") (py ""))) = true
   /\ workspace all_well fresh = Some (py "/dev/shm/tmpk3x9q_ab")
   /\ (<[py "gcc" := Success gcc_asm]>
         (<[py "ccc" := Success (TAB :: py "mov eax, 0")]>
            (∅ : gmap (list N) backend_result)))
        !! py "ccc" = Some (Success (TAB :: py "mov eax, 0")))
  /\ exists g proc o_p objdump_cmd dis,
       launched (snd (compile_code all_well square_O2 fresh)) =
         launched fresh
           ++ [g;
               (ccc_invocation all_well (py "/dev/shm/tmpk3x9q_ab")
                  (path_join (py "/dev/shm/tmpk3x9q_ab") (py "test.c"))
                  (path_join (py "/dev/shm/tmpk3x9q_ab") (py "ccc_out")),
                Returns proc);
               (probe_invocation, o_p);
               (objdump_invocation objdump_cmd
                  (path_join (py "/dev/shm/tmpk3x9q_ab") (py "ccc_out")),
                Returns dis)]
       /\ returncode proc = 0%Z
       /\ returncode dis = 0%Z
       /\ TAB :: py "mov eax, 0" = clean_disassembly (stdout dis).
Proof.
  assert (H1 : fst (compile_code all_well square_O2 fresh) =
                 Returns (<[py "gcc" := Success gcc_asm]>
                            (<[py "ccc" := Success (TAB :: py "mov eax, 0")]>
                               ∅)))
    by (vm_compute; reflexivity).
  assert (H2 : truthy (strip (get square_O2 (py "code") (py ""))) = true)
    by (vm_compute; reflexivity).
  assert (H3 : workspace all_well fresh = Some (py "/dev/shm/tmpk3x9q_ab"))
    by (vm_compute; reflexivity).
  assert (H4 : (<[py "gcc" := Success gcc_asm]>
                  (<[py "ccc" := Success (TAB :: py "mov eax, 0")]>
                     (∅ : gmap (list N) backend_result)))
                 !! py "ccc" = Some (Success (TAB :: py "mov eax, 0")))
    by (vm_compute; reflexivity).
  split; [auto|].
  exact (ccc_success_means_disassembled all_well square_O2 fresh _ _ _
           H1 H2 H3 H4).
Defined.

(** X8. In a run that returns, when the fourth call, the disassembler's, has
    returned, CCC's entry is the cleaned listing for exit status 0, and for
    any other exit status the failure "Objdump failed: " followed by the
    disassembler's standard error text, which is therefore never empty. *)
Theorem ccc_entry_after_disassembly w data st temp_dir r inv dis :
  fst (compile_code w data st) = Returns r ->
  truthy (strip (get data (py "code") (py ""))) = true ->
  workspace w st = Some temp_dir ->
  launched (snd (compile_code w data st)) !! (length (launched st) + 3)%nat
    = Some (inv, Returns dis) ->
  r !! py "ccc" =
    Some (if (returncode dis =? 0)%Z
          then Success (clean_disassembly (stdout dis))
          else Failure (py "Objdump failed: " ++ stderr dis))
  /\ py "Objdump failed: " ++ stderr dis <> [].
Proof.
  intros Hr Hcode Hws Hcall. split; [|vm_compute; discriminate].
  pose proof (returned_run_set_up w data st temp_dir r Hr Hcode Hws) as Hset.
  destruct (compile_code_paths w data st temp_dir Hset)
    as (a & o_a & o_c & _ & _ & _ & _ & Hp).
  cbv zeta in Hp.
  destruct Hp as [(b & st' & H & Hl & _)
                 |[(proc & st' & _ & _ & H & Hl)
                  |(proc & o_p & o_d & b & st' & _ & _ & _ & H & Hl
                    & _ & _ & Hd2)]];
    rewrite H in Hr, Hcall; [|discriminate|];
    apply returns_inj in Hr; subst r; cbn [snd] in Hcall;
    rewrite Hl in Hcall; rewrite lookup_app_r in Hcall by lia;
    replace (length (launched st) + 3 - length (launched st))%nat
      with 3%nat in Hcall by lia;
    cbn [lookup list_lookup] in Hcall; [discriminate|].
  rewrite (proj2 (entries_lookup a b)). f_equal. apply Hd2. congruence.
Qed.

Lemma ccc_entry_after_disassembly_witness :
  (fst (compile_code objdump_fails square_O2 fresh) =
     Returns (<[py "gcc" := Success gcc_asm]>
                (<[py "ccc" := Failure (py "Objdump failed: ")]> ∅))
   /\ truthy (strip (get square_O2 (py "code") (py ""))) = true
   /\ workspace objdump_fails fresh = Some (py "/dev/shm/tmpk3x9q_ab")
   /\ launched (snd (compile_code objdump_fails square_O2 fresh))
        !! (length (launched fresh) + 3)%nat
      = Some (objdump_invocation (py "x86_64-linux-gnu-objdump")
                (py "/dev/shm/tmpk3x9q_ab/ccc_out"),
              Returns {| returncode := 1; stdout := []; stderr := [] |}))
  /\ (<[py "gcc" := Success gcc_asm]>
        (<[py "ccc" := Failure (py "Objdump failed: ")]>
           (∅ : gmap (list N) backend_result)))
       !! py "ccc" =
       Some (if (returncode
                   {| returncode := 1; stdout := []; stderr := [] |} =? 0)%Z
             then Success
                    (clean_disassembly
                       (stdout
                          {| returncode := 1; stdout := []; stderr := [] |}))
             else Failure
                    (py "Objdump failed: "
                       ++ stderr
                            {| returncode := 1; stdout := []; stderr := [] |}))
  /\ py "Objdump failed: "
       ++ stderr {| returncode := 1; stdout := []; stderr := [] |} <> [].
Proof.
  assert (H1 : fst (compile_code objdump_fails square_O2 fresh) =
                 Returns (<[py "gcc" := Success gcc_asm]>
                            (<[py "ccc" := Failure (py "Objdump failed: ")]> ∅)))
    by (vm_compute; reflexivity).
  assert (H2 : truthy (strip (get square_O2 (py "code") (py ""))) = true)
    by (vm_compute; reflexivity).
  assert (H3 : workspace objdump_fails fresh
               = Some (py "/dev/shm/tmpk3x9q_ab"))
    by (vm_compute; reflexivity).
  assert (H4 : launched (snd (compile_code objdump_fails square_O2 fresh))
                 !! (length (launched fresh) + 3)%nat
               = Some (objdump_invocation (py "x86_64-linux-gnu-objdump")
                         (py "/dev/shm/tmpk3x9q_ab/ccc_out"),
                       Returns {| returncode := 1; stdout := [];
                                  stderr := [] |}))
    by (vm_compute; reflexivity).
  split; [auto|].
  exact (ccc_entry_after_disassembly objdump_fails square_O2 fresh _ _ _ _
           H1 H2 H3 H4).
Defined.

(** ** Time limits *)

Lemma timeout_message w cmd :
  str_exception w (TimeoutExpired cmd 5) =
    py "Command '" ++ str_list w cmd ++ py "' timed out after 5 seconds".
Proof.
  unfold str_exception. do 2 f_equal.
Qed.

(** X9. In a run that returns, a GCC still running after five seconds is
    reported as the failure "Command '<the command>' timed out after 5
    seconds", and CCC is called all the same. *)
Theorem gcc_timeout_reported w data st temp_dir r :
  fst (compile_code w data st) = Returns r ->
  truthy (strip (get data (py "code") (py ""))) = true ->
  workspace w st = Some temp_dir ->
  outlives 5
    (ending_of
       (process w
          (gcc_invocation (get data (py "opt") (py "-O0"))
             (path_join temp_dir (py "test.c")))
          (<[path_join temp_dir (py "test.c") :=
               File (get data (py "code") (py ""))]>
             (<[temp_dir := Dir]> (fs st))))) ->
  r !! py "gcc" =
    Some (Failure
            (py "Command '"
               ++ str_list w
                    (argv (gcc_invocation (get data (py "opt") (py "-O0"))
                             (path_join temp_dir (py "test.c"))))
               ++ py "' timed out after 5 seconds"))
  /\ exists o_a o_c rest,
       launched (snd (compile_code w data st)) =
         launched st
           ++ (gcc_invocation (get data (py "opt") (py "-O0"))
                 (path_join temp_dir (py "test.c")), o_a)
           :: (ccc_invocation w temp_dir (path_join temp_dir (py "test.c"))
                 (path_join temp_dir (py "ccc_out")), o_c)
           :: rest.
Proof.
  intros Hr Hcode Hws Hslow.
  pose proof (returned_run_set_up w data st temp_dir r Hr Hcode Hws) as Hset.
  split; [|exact (compile_code_calls w data st temp_dir Hset)].
  destruct (compile_code_paths w data st temp_dir Hset)
    as (a & o_a & o_c & Hoa & Ha1 & _ & _ & Hp).
  cbv zeta in Hoa, Hp.
  rewrite (outlives_timeout (gcc_invocation _ _) 5 _ eq_refl Hslow) in Hoa.
  pose proof (Ha1 _ Hoa) as Ha. rewrite timeout_message in Ha.
  destruct Hp as [(b & st' & H & _)
                 |[(proc & st' & _ & _ & H & _)
                  |(proc & o_p & o_d & b & st' & _ & _ & _ & H & _)]];
    rewrite H in Hr; [|discriminate|];
    apply returns_inj in Hr; subst r;
    rewrite (proj1 (entries_lookup a b)), Ha; reflexivity.
Qed.

Lemma gcc_timeout_reported_witness :
  (fst (compile_code gcc_slow square_O2 fresh) =
     Returns
       (<[py "gcc" :=
            Failure
              (py "Command '"
                 ++ str_list gcc_slow
                      (argv (gcc_invocation (py "-O2")
                               (py "/dev/shm/tmpk3x9q_ab/test.c")))
                 ++ py "' timed out after 5 seconds")]>
          (<[py "ccc" := Success (TAB :: py "mov eax, 0")]> ∅))
   /\ truthy (strip (get square_O2 (py "code") (py ""))) = true
   /\ workspace gcc_slow fresh = Some (py "/dev/shm/tmpk3x9q_ab")
   /\ outlives 5
        (ending_of
           (process gcc_slow
              (gcc_invocation (get square_O2 (py "opt") (py "-O0"))
                 (path_join (py "/dev/shm/tmpk3x9q_ab") (py "test.c")))
              (<[path_join (py "/dev/shm/tmpk3x9q_ab") (py "test.c") :=
                   File (get square_O2 (py "code") (py ""))]>
                 (<[py "/dev/shm/tmpk3x9q_ab" := Dir]> (fs fresh))))))
  /\ exists o_a o_c rest,
       launched (snd (compile_code gcc_slow square_O2 fresh)) =
         launched fresh
           ++ (gcc_invocation (get square_O2 (py "opt") (py "-O0"))
                 (path_join (py "/dev/shm/tmpk3x9q_ab") (py "test.c")), o_a)
           :: (ccc_invocation gcc_slow (py "/dev/shm/tmpk3x9q_ab")
                 (path_join (py "/dev/shm/tmpk3x9q_ab") (py "test.c"))
                 (path_join (py "/dev/shm/tmpk3x9q_ab") (py "ccc_out")), o_c)
           :: rest.
Proof.
  assert (H1 : fst (compile_code gcc_slow square_O2 fresh) =
     Returns
       (<[py "gcc" :=
            Failure
              (py "Command '"
                 ++ str_list gcc_slow
                      (argv (gcc_invocation (py "-O2")
                               (py "/dev/shm/tmpk3x9q_ab/test.c")))
                 ++ py "' timed out after 5 seconds")]>
          (<[py "ccc" := Success (TAB :: py "mov eax, 0")]> ∅)))
    by (vm_compute; reflexivity).
  assert (H2 : truthy (strip (get square_O2 (py "code") (py ""))) = true)
    by (vm_compute; reflexivity).
  assert (H3 : workspace gcc_slow fresh = Some (py "/dev/shm/tmpk3x9q_ab"))
    by (vm_compute; reflexivity).
  assert (H4 : outlives 5
        (ending_of
           (process gcc_slow
              (gcc_invocation (get square_O2 (py "opt") (py "-O0"))
                 (path_join (py "/dev/shm/tmpk3x9q_ab") (py "test.c")))
              (<[path_join (py "/dev/shm/tmpk3x9q_ab") (py "test.c") :=
                   File (get square_O2 (py "code") (py ""))]>
                 (<[py "/dev/shm/tmpk3x9q_ab" := Dir]> (fs fresh))))))
    by (vm_compute; reflexivity).
  split; [auto|].
  exact (proj2 (gcc_timeout_reported gcc_slow square_O2 fresh _ _
                  H1 H2 H3 H4)).
Defined.

(** ** Files outside the work space *)

Lemma startswith_app (a b : pystr) : startswith a (a ++ b) = true.
Proof.
  induction a as [|c a IH]; [reflexivity|].
  cbn [app startswith]. rewrite N.eqb_refl. exact IH.
Qed.

Lemma rmtree_outside d f p : within d p = false -> rmtree d f !! p = f !! p.
Proof.
  intros H. unfold rmtree. destruct (f !! p) as [x|] eqn:E.
  - apply map_lookup_filter_Some. split; [exact E|exact H].
  - apply map_lookup_filter_None. left. exact E.
Qed.

(** The directory [mkdtemp] makes lies in [/dev/shm], so its path is not
    empty. *)
Lemma workspace_not_empty w st temp_dir :
  workspace w st = Some temp_dir -> temp_dir <> [].
Proof.
  unfold workspace, mkdtemp.
  destruct (mkdir_error w); [discriminate|].
  destruct (List.find _ (random_names w)) as [name|]; [|discriminate].
  cbn [fst]. intros H E. rewrite E in H. vm_compute in H. discriminate.
Qed.

(** The source file lies in the work space. *)
Lemma source_within temp_dir name :
  temp_dir <> [] ->
  endswith_slash temp_dir = false ->
  startswith (py "/") name = false ->
  within temp_dir (path_join temp_dir name) = true.
Proof.
  intros Hne Hslash Hname. unfold path_join. rewrite Hname, Hslash.
  destruct temp_dir as [|c d]; [congruence|]. cbn [truthy negb orb].
  unfold within. rewrite app_assoc, startswith_app. apply orb_true_r.
Qed.

Lemma ccc_block_frame w temp_dir src results st p :
  (forall inv f, effect (process w inv f) f !! p = f !! p) ->
  fs (snd (ccc_block w temp_dir src results st)) !! p = fs st !! p.
Proof.
  intros Hframe.
  pose proof (ccc_block_run w temp_dir src results st) as H. cbv zeta in H.
  destruct (run_outcome _ _) as [proc|e|]; [| |contradiction].
  - destruct (returncode proc =? 0)%Z; [destruct (bool_decide _)|];
      try (rewrite H; cbn [snd fs]; apply Hframe).
    rewrite H.
    match goal with
    | |- context [try_except _ _ ?s] =>
        pose proof (disassemble_run w (path_join temp_dir (py "ccc_out"))
                      results s) as D
    end.
    cbv zeta in D. cbn [fs launched] in D.
    destruct (run_outcome probe_invocation _) as [ver|e|].
    + destruct D as (b & -> & _). cbn [snd fs]. rewrite !Hframe. reflexivity.
    + destruct D as (b & -> & _). cbn [snd fs]. rewrite !Hframe. reflexivity.
    + rewrite D. cbn [snd fs]. rewrite !Hframe. reflexivity.
  - rewrite H. cbn [snd fs]. apply Hframe.
Qed.

(** X11. [compile_code] creates, changes and removes nothing outside its
    temporary directory: a path that is not in that directory, and that the
    child processes leave as it is, holds after the run what it held
    before, however the run ends. The directory's path is taken not to end
    in a slash, as the names of [tempfile] never do. *)
Theorem files_outside_untouched w data st p :
  (forall inv f, effect (process w inv f) f !! p = f !! p) ->
  (forall temp_dir,
      workspace w st = Some temp_dir ->
      endswith_slash temp_dir = false /\ within temp_dir p = false) ->
  fs (snd (compile_code w data st)) !! p = fs st !! p.
Proof.
  intros Hframe Hout.
  destruct (compile_code_stops_early w data st)
    as [[_ H]|[(m & _ & _ & H)|[(m & _ & _ & H)
       |(temp_dir & _ & Hws & H)]]];
    [rewrite H; reflexivity..|].
  destruct (Hout temp_dir Hws) as [Hslash Hp].
  assert (Hd : temp_dir <> p)
    by (intros <-; rewrite within_self in Hp; discriminate).
  assert (Hs : path_join temp_dir (py "test.c") <> p).
  { intros <-.
    rewrite (source_within temp_dir (py "test.c")
               (workspace_not_empty _ _ _ Hws) Hslash eq_refl) in Hp.
    discriminate. }
  destruct H as [(m & H)|[(m & H)|Hset]].
  - rewrite H. cbn [snd fs]. rewrite rmtree_outside by exact Hp.
    apply lookup_insert_ne. exact Hd.
  - rewrite H. cbn [snd fs]. rewrite rmtree_outside by exact Hp.
    rewrite lookup_insert_ne by exact Hs. apply lookup_insert_ne. exact Hd.
  - rewrite (compile_code_set_up w data st temp_dir Hset).
    unfold bind.
    match goal with
    | |- context [gcc_block ?w ?o ?s ?r ?st] =>
        destruct (gcc_block_outcome w o s r st) as (a & Hg & _)
    end.
    cbv zeta in Hg. rewrite Hg.
    match goal with
    | |- context [ccc_block ?w ?t ?s ?r ?st] =>
        pose proof (ccc_block_frame w t s r st p Hframe) as Hc;
        destruct (ccc_block w t s r st) as [[r2|e2|] st4]
    end; cbn [snd fs] in Hc |- *; rewrite ?rmtree_outside by exact Hp;
      rewrite Hc, Hframe; cbn [fs];
      rewrite lookup_insert_ne by exact Hs; apply lookup_insert_ne; exact Hd.
Qed.

Lemma files_outside_untouched_witness :
  ((forall inv f,
       effect (process no_binary inv f) f !! py "/etc/passwd"
       = f !! py "/etc/passwd")
   /\ (forall temp_dir,
         workspace no_binary fresh = Some temp_dir ->
         endswith_slash temp_dir = false
         /\ within temp_dir (py "/etc/passwd") = false))
  /\ fs (snd (compile_code no_binary square_O2 fresh)) !! py "/etc/passwd"
     = fs fresh !! py "/etc/passwd".
Proof.
  assert (H1 : forall inv f,
             effect (process no_binary inv f) f !! py "/etc/passwd"
             = f !! py "/etc/passwd").
  { intros inv f. unfold no_binary, machine. cbn [process].
    repeat case_bool_decide; reflexivity. }
  assert (H2 : forall temp_dir,
             workspace no_binary fresh = Some temp_dir ->
             endswith_slash temp_dir = false
             /\ within temp_dir (py "/etc/passwd") = false).
  { intros temp_dir Hws. vm_compute in Hws.
    apply (f_equal (fun o => match o with Some d => d | None => [] end))
      in Hws.
    cbv beta iota in Hws. subst temp_dir. split; vm_compute; reflexivity. }
  split; [auto|].
  exact (files_outside_untouched no_binary square_O2 fresh _ H1 H2).
Defined.

(** ** CCC's diagnostics *)

(** X16. In a run that returns, when CCC's call (the second call) has
    returned with a non-zero exit status, CCC's entry is a failure whose
    message is CCC's standard error text, or its standard output text when
    the former is empty, or "Unknown CCC Error" when both are empty; the
    message is never empty. *)
Theorem ccc_nonzero_exit_message w data st temp_dir r inv proc :
  fst (compile_code w data st) = Returns r ->
  truthy (strip (get data (py "code") (py ""))) = true ->
  workspace w st = Some temp_dir ->
  launched (snd (compile_code w data st)) !! (length (launched st) + 1)%nat
    = Some (inv, Returns proc) ->
  returncode proc <> 0%Z ->
  exists m,
    r !! py "ccc" = Some (Failure m)
    /\ m = (if truthy (stderr proc) then stderr proc
            else if truthy (stdout proc) then stdout proc
            else py "Unknown CCC Error")
    /\ m <> [].
Proof.
  intros Hr Hcode Hws Hcall Hrc.
  pose proof (returned_run_set_up w data st temp_dir r Hr Hcode Hws) as Hset.
  destruct (compile_code_paths w data st temp_dir Hset)
    as (a & o_a & o_c & _ & _ & _ & _ & Hp).
  cbv zeta in Hp.
  assert (Hm : (if truthy (stderr proc) then stderr proc
                else if truthy (stdout proc) then stdout proc
                else py "Unknown CCC Error") <> [])
    by (destruct (stderr proc); [destruct (stdout proc)|]; cbn [truthy];
        [vm_compute|..]; discriminate).
  destruct Hp as [(b & st' & H & Hl & Hcase)
                 |[(proc' & st' & _ & _ & H & Hl)
                  |(proc' & o_p & o_d & b & st' & Hoc & Hrc' & _ & H & Hl & _)]];
    rewrite H in Hr, Hcall; [|discriminate|];
    apply returns_inj in Hr; subst r; cbn [snd] in Hcall;
    rewrite Hl in Hcall; rewrite lookup_app_r in Hcall by lia;
    replace (length (launched st) + 1 - length (launched st))%nat
      with 1%nat in Hcall by lia;
    cbn [lookup list_lookup] in Hcall;
    assert (Ho : o_c = Returns proc) by congruence.
  - destruct Hcase as [(e & He & _)|[(proc' & Hoc & _ & Hb)
                                    |(proc' & Hoc & Hrc' & _)]].
    + congruence.
    + rewrite Ho in Hoc. apply returns_inj in Hoc. subst proc'.
      eexists. rewrite (proj2 (entries_lookup a b)), Hb.
      split; [reflexivity|]. split; [reflexivity|exact Hm].
    + rewrite Ho in Hoc. apply returns_inj in Hoc. subst proc'. contradiction.
  - rewrite Ho in Hoc. apply returns_inj in Hoc. subst proc'. contradiction.
Qed.

Lemma ccc_nonzero_exit_message_witness :
  (fst (compile_code gcc_killed square_O2 fresh) =
     Returns (<[py "gcc" := Failure []]>
                (<[py "ccc" := Failure (py "error: expected ';'")]> ∅))
   /\ truthy (strip (get square_O2 (py "code") (py ""))) = true
   /\ workspace gcc_killed fresh = Some (py "/dev/shm/tmpk3x9q_ab")
   /\ launched (snd (compile_code gcc_killed square_O2 fresh))
        !! (length (launched fresh) + 1)%nat
      = Some (ccc_invocation gcc_killed (py "/dev/shm/tmpk3x9q_ab")
                (py "/dev/shm/tmpk3x9q_ab/test.c")
                (py "/dev/shm/tmpk3x9q_ab/ccc_out"),
              Returns {| returncode := 1; stdout := [];
                         stderr := py "error: expected ';'" |})
   /\ returncode {| returncode := 1; stdout := [];
                    stderr := py "error: expected ';'" |} <> 0%Z)
  /\ exists m,
       (<[py "gcc" := Failure []]>
          (<[py "ccc" := Failure (py "error: expected ';'")]>
             (∅ : gmap (list N) backend_result)))
         !! py "ccc" = Some (Failure m)
       /\ m = (if truthy (stderr {| returncode := 1; stdout := [];
                                    stderr := py "error: expected ';'" |})
               then stderr {| returncode := 1; stdout := [];
                              stderr := py "error: expected ';'" |}
               else if truthy (stdout {| returncode := 1; stdout := [];
                                         stderr := py "error: expected ';'" |})
               then stdout {| returncode := 1; stdout := [];
                              stderr := py "error: expected ';'" |}
               else py "Unknown CCC Error")
       /\ m <> [].
Proof.
  assert (H1 : fst (compile_code gcc_killed square_O2 fresh) =
     Returns (<[py "gcc" := Failure []]>
                (<[py "ccc" := Failure (py "error: expected ';'")]> ∅)))
    by (vm_compute; reflexivity).
  assert (H2 : truthy (strip (get square_O2 (py "code") (py ""))) = true)
    by (vm_compute; reflexivity).
  assert (H3 : workspace gcc_killed fresh = Some (py "/dev/shm/tmpk3x9q_ab"))
    by (vm_compute; reflexivity).
  assert (H4 : launched (snd (compile_code gcc_killed square_O2 fresh))
        !! (length (launched fresh) + 1)%nat
      = Some (ccc_invocation gcc_killed (py "/dev/shm/tmpk3x9q_ab")
                (py "/dev/shm/tmpk3x9q_ab/test.c")
                (py "/dev/shm/tmpk3x9q_ab/ccc_out"),
              Returns {| returncode := 1; stdout := [];
                         stderr := py "error: expected ';'" |}))
    by (vm_compute; reflexivity).
  assert (H5 : returncode {| returncode := 1; stdout := [];
                    stderr := py "error: expected ';'" |} <> 0%Z)
    by (vm_compute; discriminate).
  split; [auto|].
  exact (ccc_nonzero_exit_message gcc_killed square_O2 fresh _ _ _ _
           H1 H2 H3 H4 H5).
Defined.

(** ** The cleaned listing *)

Lemma clean_lines_listing lines : clean_lines_of lines = listing lines.
Proof. unfold clean_lines_of. apply fold_clean_before. Qed.

Lemma contains_after_tab m line rest :
  after_first_tab line = Some rest ->
  contains m rest = true -> contains m line = true.
Proof.
  revert rest. induction line as [|c line IH]; intros rest; [discriminate|].
  cbn [after_first_tab contains]. destruct (c =? TAB).
  - intros [= <-] H. rewrite H. apply orb_true_r.
  - intros Hr H. rewrite (IH rest Hr H). apply orb_true_r.
Qed.

Lemma emitted_no_marker line :
  is_marker line = false -> is_marker (emitted line) = false.
Proof.
  unfold emitted, is_marker. intros H.
  destruct (after_first_tab line) as [rest|] eqn:E; [|exact H].
  cbn [contains].
  replace (startswith MARKER (TAB :: rest)) with false
    by (vm_compute; reflexivity).
  cbn [orb]. destruct (contains MARKER rest) eqn:C; [|reflexivity].
  rewrite (contains_after_tab _ _ _ E C) in H. discriminate.
Qed.

(** X12. No line of the cleaned listing contains "Disassembly of section":
    the section headers of the disassembler never reach the output, wherever
    they stand and whatever surrounds them on their line. *)
Theorem cleaned_lines_have_no_marker (lines : list pystr) :
  Forall (fun l => contains MARKER l = false) (clean_lines_of lines).
Proof.
  rewrite clean_lines_listing. unfold listing.
  apply Forall_forall. intros l Hl. apply list_elem_of_In in Hl.
  apply in_map_iff in Hl as (l0 & <- & Hl0).
  apply filter_In in Hl0 as [_ Hk]. apply andb_true_iff in Hk as [_ Hk].
  apply emitted_no_marker. apply negb_true_iff. exact Hk.
Qed.

(** X13. Every line of the cleaned listing is non-empty and either begins
    with a tab or holds no tab at all: nothing is left in front of the first
    tab of a line. *)
Theorem cleaned_lines_start_at_tab (lines : list pystr) :
  Forall (fun l => l <> [] /\ (head l = Some TAB \/ after_first_tab l = None))
    (clean_lines_of lines).
Proof.
  rewrite clean_lines_listing. unfold listing.
  apply Forall_forall. intros l Hl. apply list_elem_of_In in Hl.
  apply in_map_iff in Hl as (l0 & <- & Hl0).
  apply filter_In in Hl0 as [_ Hk]. apply andb_true_iff in Hk as [Hk _].
  apply negb_true_iff in Hk. unfold emitted.
  destruct (after_first_tab l0) as [rest|] eqn:E.
  - split; [discriminate|]. left. reflexivity.
  - split; [|right; exact E]. intros ->. discriminate.
Qed.

Lemma after_marker_none lines :
  forallb (fun l => negb (is_marker l)) lines = true ->
  after_marker lines = [].
Proof.
  induction lines as [|l lines IH]; [reflexivity|].
  cbn [forallb after_marker]. intros H.
  apply andb_true_iff in H as [Hl H]. apply negb_true_iff in Hl.
  rewrite Hl. exact (IH H).
Qed.

(** X14. When no line of the disassembler's output contains "Disassembly of
    section", the cleaned listing is the empty string, whatever the output
    holds: an exit status 0 of the disassembler is then reported as a
    success with no assembly. *)
Theorem no_marker_empty_listing (out : pystr) :
  forallb (fun l => negb (contains MARKER l)) (splitlines out) = true ->
  clean_disassembly out = [].
Proof.
  intros H. unfold clean_disassembly. rewrite clean_lines_listing.
  unfold listing. rewrite after_marker_none by exact H. reflexivity.
Qed.

Lemma no_marker_empty_listing_witness :
  forallb (fun l => negb (contains MARKER l))
    (splitlines (py "a.o:     file format elf64-x86-64" ++ [LF]
                 ++ py "  10:" ++ [TAB] ++ py "mov eax, 0" ++ [LF])) = true
  /\ clean_disassembly
       (py "a.o:     file format elf64-x86-64" ++ [LF]
        ++ py "  10:" ++ [TAB] ++ py "mov eax, 0" ++ [LF]) = [].
Proof.
  assert (H : forallb (fun l => negb (contains MARKER l))
    (splitlines (py "a.o:     file format elf64-x86-64" ++ [LF]
                 ++ py "  10:" ++ [TAB] ++ py "mov eax, 0" ++ [LF])) = true)
    by (vm_compute; reflexivity).
  split; [exact H|].
  exact (no_marker_empty_listing _ H).
Defined.

Lemma fold_clean_started lines :
  existsb is_marker lines = true ->
  fold_left clean_step lines (false, []) = (true, clean_lines_of lines).
Proof.
  unfold clean_lines_of.
  induction lines as [|l lines IH]; [discriminate|].
  cbn [existsb fold_left]. destruct (is_marker l) eqn:Em.
  - intros _. rewrite clean_step_marker by exact Em. cbn [snd].
    rewrite fold_clean_after. reflexivity.
  - rewrite clean_step_before by exact Em. exact IH.
Qed.

(** X15. Listings compose section by section: when the first lines hold a
    section header and the following lines start with one, cleaning them
    together gives the cleaned first lines followed by the cleaned following
    lines. *)
Theorem sections_concatenate (lines1 lines2 : list pystr) (header : pystr) :
  existsb (contains MARKER) lines1 = true ->
  contains MARKER header = true ->
  clean_lines_of (lines1 ++ header :: lines2) =
    clean_lines_of lines1 ++ clean_lines_of (header :: lines2).
Proof.
  intros H1 Hh.
  unfold clean_lines_of at 1. rewrite fold_left_app.
  rewrite (fold_clean_started lines1 H1). rewrite fold_clean_after.
  cbn [snd]. f_equal.
  rewrite clean_lines_listing. unfold listing.
  cbn [List.filter after_marker].
  change (contains MARKER header) with (is_marker header) in Hh.
  rewrite Hh, andb_false_r. reflexivity.
Qed.

Lemma sections_concatenate_witness :
  (existsb (contains MARKER)
     [py "a.o: file format"; py "Disassembly of section .text:";
      py "   0:" ++ [TAB] ++ py "ret"] = true
   /\ contains MARKER (py "Disassembly of section .text.startup:") = true)
  /\ clean_lines_of
       ([py "a.o: file format"; py "Disassembly of section .text:";
         py "   0:" ++ [TAB] ++ py "ret"]
        ++ py "Disassembly of section .text.startup:"
           :: [py "   4:" ++ [TAB] ++ py "nop"]) =
     clean_lines_of
       [py "a.o: file format"; py "Disassembly of section .text:";
        py "   0:" ++ [TAB] ++ py "ret"]
     ++ clean_lines_of
          (py "Disassembly of section .text.startup:"
           :: [py "   4:" ++ [TAB] ++ py "nop"]).
Proof.
  split.
  - split; vm_compute; reflexivity.
  - apply sections_concatenate; vm_compute; reflexivity.
Defined.

(** * The claims stated on the calls of a run *)

Lemma lookup_after {A} (pre suf : list A) (i : nat) :
  (pre ++ suf) !! (length pre + i)%nat = suf !! i.
Proof.
  rewrite lookup_app_r by lia. f_equal. lia.
Qed.



(** C7. Whenever a run calls CCC, which is the second call it makes, for
    every request and every value of ['opt'], the argument vector is the
    program, "-c", the source file, "-o" and the output binary; the level is
    in GCC's call before it and not in CCC's. *)
Theorem ccc_gets_no_opt_level w data st inv o :
  launched (snd (compile_code w data st)) !! (length (launched st) + 1)%nat
    = Some (inv, o) ->
  exists temp_dir o_a,
    workspace w st = Some temp_dir
    /\ launched (snd (compile_code w data st)) !! length (launched st)
       = Some (gcc_invocation (get data (py "opt") (py "-O0"))
                 (path_join temp_dir (py "test.c")), o_a)
    /\ inv = {| argv := [CCC_BINARY w; py "-c";
                         path_join temp_dir (py "test.c"); py "-o";
                         path_join temp_dir (py "ccc_out")];
                cwd := Some temp_dir; timeout := Some 5; text := true |}.
Proof.
  intros Hcall.
  destruct (called_run_set_up w data st _ _ Hcall) as [temp_dir Hset].
  destruct (compile_code_calls w data st temp_dir Hset)
    as (o_a & o_c & rest & Hl).
  rewrite Hl, lookup_after in Hcall. cbn [lookup list_lookup] in Hcall.
  exists temp_dir, o_a. split; [exact (proj1 (proj2 (proj2 Hset)))|].
  split.
  - rewrite Hl, <- (Nat.add_0_r (length (launched st))), lookup_after.
    reflexivity.
  - unfold ccc_invocation in Hcall. congruence.
Qed.

Lemma ccc_gets_no_opt_level_witness :
  launched (snd (compile_code all_well (<[py "opt" := py "-O3"]> square_no_opt)
                   fresh))
    !! (length (launched fresh) + 1)%nat
    = Some (ccc_invocation all_well (py "/dev/shm/tmpk3x9q_ab")
              (py "/dev/shm/tmpk3x9q_ab/test.c")
              (py "/dev/shm/tmpk3x9q_ab/ccc_out"),
            Returns {| returncode := 0; stdout := []; stderr := [] |})
  /\ exists temp_dir o_a,
       workspace all_well fresh = Some temp_dir
       /\ launched
            (snd (compile_code all_well
                    (<[py "opt" := py "-O3"]> square_no_opt) fresh))
            !! length (launched fresh)
          = Some (gcc_invocation
                    (get (<[py "opt" := py "-O3"]> square_no_opt) (py "opt")
                       (py "-O0"))
                    (path_join temp_dir (py "test.c")), o_a)
       /\ ccc_invocation all_well (py "/dev/shm/tmpk3x9q_ab")
            (py "/dev/shm/tmpk3x9q_ab/test.c")
            (py "/dev/shm/tmpk3x9q_ab/ccc_out")
          = {| argv := [CCC_BINARY all_well; py "-c";
                        path_join temp_dir (py "test.c"); py "-o";
                        path_join temp_dir (py "ccc_out")];
               cwd := Some temp_dir; timeout := Some 5; text := true |}.
Proof.
  assert (H : launched
                (snd (compile_code all_well
                        (<[py "opt" := py "-O3"]> square_no_opt) fresh))
                !! (length (launched fresh) + 1)%nat
              = Some (ccc_invocation all_well (py "/dev/shm/tmpk3x9q_ab")
                        (py "/dev/shm/tmpk3x9q_ab/test.c")
                        (py "/dev/shm/tmpk3x9q_ab/ccc_out"),
                      Returns {| returncode := 0; stdout := [];
                                 stderr := [] |}))
    by (vm_compute; reflexivity).
  split; [exact H|].
  exact (ccc_gets_no_opt_level all_well _ fresh _ _ H).
Defined.

(** C8. In a run that returns, when CCC's call has returned with exit status
    0 and the output binary does not exist afterwards, the value under
    ["ccc"] is the failure "Binary missing" (a message of its own, neither a
    compiler diagnostic nor a success with an empty listing), and CCC's call
    is the last: no probe and no disassembler is started. *)
Theorem binary_missing_reported w data st temp_dir r proc st4 :
  fst (compile_code w data st) = Returns r ->
  truthy (strip (get data (py "code") (py ""))) = true ->
  workspace w st = Some temp_dir ->
  subprocess_run w
    (ccc_invocation w temp_dir (path_join temp_dir (py "test.c"))
       (path_join temp_dir (py "ccc_out")))
    (snd (gcc_block w (get data (py "opt") (py "-O0"))
            (path_join temp_dir (py "test.c")) ∅
            {| fs := <[path_join temp_dir (py "test.c") :=
                         File (get data (py "code") (py ""))]>
                       (<[temp_dir := Dir]> (fs st));
               launched := launched st;
               console :=
                 console st
                   ++ [level_line (get data (py "opt") (py "-O0"))] |}))
    = (Returns proc, st4) ->
  returncode proc = 0%Z ->
  fs st4 !! path_join temp_dir (py "ccc_out") = None ->
  r !! py "ccc" = Some (Failure (py "Binary missing"))
  /\ launched (snd (compile_code w data st)) = launched st4.
Proof.
  intros Hr Hcode Hws Hrun Hrc Hfs.
  pose proof (returned_run_set_up w data st temp_dir r Hr Hcode Hws) as Hset.
  rewrite (compile_code_set_up w data st temp_dir Hset) in Hr |- *.
  unfold bind in Hr |- *.
  match goal with
  | |- context [gcc_block ?w ?o ?s ?r ?st] =>
      destruct (gcc_block_run w o s r st) as (a & o_a & Hg & _)
  end.
  rewrite Hg in Hrun, Hr |- *. cbn [snd] in Hrun.
  rewrite (ccc_block_binary_missing _ _ _ _ _ _ _ Hrun Hrc Hfs) in Hr |- *.
  cbn [fst snd launched] in Hr |- *. apply returns_inj in Hr. subst r.
  split; [apply lookup_insert_eq|reflexivity].
Qed.

Lemma binary_missing_reported_witness :
  (fst (compile_code no_binary square_O2 fresh) =
     Returns (<[py "gcc" := Success gcc_asm]>
                (<[py "ccc" := Failure (py "Binary missing")]> ∅))
   /\ truthy (strip (get square_O2 (py "code") (py ""))) = true
   /\ workspace no_binary fresh = Some (py "/dev/shm/tmpk3x9q_ab")
   /\ subprocess_run no_binary
        (ccc_invocation no_binary (py "/dev/shm/tmpk3x9q_ab")
           (path_join (py "/dev/shm/tmpk3x9q_ab") (py "test.c"))
           (path_join (py "/dev/shm/tmpk3x9q_ab") (py "ccc_out")))
        (snd (gcc_block no_binary (get square_O2 (py "opt") (py "-O0"))
                (path_join (py "/dev/shm/tmpk3x9q_ab") (py "test.c")) ∅
                {| fs := <[path_join (py "/dev/shm/tmpk3x9q_ab") (py "test.c")
                             := File (get square_O2 (py "code") (py ""))]>
                           (<[py "/dev/shm/tmpk3x9q_ab" := Dir]> (fs fresh));
                   launched := launched fresh;
                   console :=
                     console fresh
                       ++ [level_line
                             (get square_O2 (py "opt") (py "-O0"))] |}))
        = (Returns {| returncode := 0; stdout := []; stderr := [] |},
           no_binary_after_ccc)
   /\ fs no_binary_after_ccc
        !! path_join (py "/dev/shm/tmpk3x9q_ab") (py "ccc_out") = None)
  /\ (<[py "gcc" := Success gcc_asm]>
        (<[py "ccc" := Failure (py "Binary missing")]>
           (∅ : gmap (list N) backend_result)))
       !! py "ccc" = Some (Failure (py "Binary missing"))
  /\ launched (snd (compile_code no_binary square_O2 fresh))
     = launched no_binary_after_ccc.
Proof.
  assert (H0 : fst (compile_code no_binary square_O2 fresh) =
                 Returns (<[py "gcc" := Success gcc_asm]>
                            (<[py "ccc" := Failure (py "Binary missing")]> ∅)))
    by (vm_compute; reflexivity).
  assert (H1 : truthy (strip (get square_O2 (py "code") (py ""))) = true)
    by (vm_compute; reflexivity).
  assert (H2 : workspace no_binary fresh = Some (py "/dev/shm/tmpk3x9q_ab"))
    by (vm_compute; reflexivity).
  assert (H3 : subprocess_run no_binary
        (ccc_invocation no_binary (py "/dev/shm/tmpk3x9q_ab")
           (path_join (py "/dev/shm/tmpk3x9q_ab") (py "test.c"))
           (path_join (py "/dev/shm/tmpk3x9q_ab") (py "ccc_out")))
        (snd (gcc_block no_binary (get square_O2 (py "opt") (py "-O0"))
                (path_join (py "/dev/shm/tmpk3x9q_ab") (py "test.c")) ∅
                {| fs := <[path_join (py "/dev/shm/tmpk3x9q_ab") (py "test.c")
                             := File (get square_O2 (py "code") (py ""))]>
                           (<[py "/dev/shm/tmpk3x9q_ab" := Dir]> (fs fresh));
                   launched := launched fresh;
                   console :=
                     console fresh
                       ++ [level_line
                             (get square_O2 (py "opt") (py "-O0"))] |}))
        = (Returns {| returncode := 0; stdout := []; stderr := [] |},
           no_binary_after_ccc))
    by (vm_compute; reflexivity).
  assert (H4 : fs no_binary_after_ccc
                 !! path_join (py "/dev/shm/tmpk3x9q_ab") (py "ccc_out") = None)
    by (vm_compute; reflexivity).
  split; [auto 10|].
  exact (binary_missing_reported no_binary square_O2 fresh
           (py "/dev/shm/tmpk3x9q_ab") _ _ _ H0 H1 H2 H3 eq_refl H4).
Defined.




(** C3 on the code: a source that is not blank and holds a lone surrogate
    cannot be written to [test.c]; the exception leaves [compile_code], which
    returns no result and has called neither compiler. The same happens, at
    the [print] of line 186, when the level holds a lone surrogate. *)
Theorem encoding_error_reaches_the_caller :
  truthy (strip (get surrogate_source (py "code") (py ""))) = true
  /\ fst (compile_code utf8_machine surrogate_source fresh) =
       Raises
         (OtherError
            (py "'utf-8' codec can't encode character: surrogates not allowed"))
  /\ launched (snd (compile_code utf8_machine surrogate_source fresh)) = []
  /\ truthy (strip (get surrogate_opt (py "code") (py ""))) = true
  /\ fst (compile_code utf8_machine surrogate_opt fresh) =
       Raises
         (OtherError
            (py "'utf-8' codec can't encode character: surrogates not allowed"))
  /\ snd (compile_code utf8_machine surrogate_opt fresh) = fresh.
Proof. repeat split; vm_compute; reflexivity. Qed.

(** C6 as stated fails: the cross objdump is installed and fails when asked
    for its version (exit status 127, a message on standard error); the
    probe returns, and the binary is disassembled with the cross objdump,
    not with the system one. *)
Lemma broken_cross_objdump_is_kept :
  launched (snd (compile_code cross_objdump_broken square_O2 fresh)) !! 2%nat
    = Some (probe_invocation,
            Returns {| returncode := 127; stdout := [];
                       stderr := py "error while loading shared libraries" |})
  /\ launched (snd (compile_code cross_objdump_broken square_O2 fresh)) !! 3%nat
     = Some (objdump_invocation (py "x86_64-linux-gnu-objdump")
               (py "/dev/shm/tmpk3x9q_ab/ccc_out"),
             Returns {| returncode := 0; stdout := one_section;
                        stderr := [] |}).
Proof. split; vm_compute; reflexivity. Qed.

(** * Further properties stated on the calls of a run *)



(** X5. The probe and the disassembler are called only after CCC's call has
    returned with exit status 0: whenever a run makes a third call, that call
    is the probe and the second call, CCC's, returned 0. When CCC fails, times
    out or cannot be started, its call is the last. *)
Theorem later_calls_need_ccc_success w data st third :
  launched (snd (compile_code w data st)) !! (length (launched st) + 2)%nat
    = Some third ->
  fst third = probe_invocation
  /\ exists inv proc,
       launched (snd (compile_code w data st))
         !! (length (launched st) + 1)%nat = Some (inv, Returns proc)
       /\ returncode proc = 0%Z.
Proof.
  intros Hcall.
  destruct (called_run_set_up w data st _ _ Hcall) as [temp_dir Hset].
  destruct (compile_code_paths w data st temp_dir Hset)
    as (a & o_a & o_c & _ & _ & _ & _ & Hp).
  cbv zeta in Hp.
  destruct Hp as [(b & st' & H & Hl & _)
                 |[(proc & st' & Hoc & Hrc & H & Hl)
                  |(proc & o_p & o_d & b & st' & Hoc & Hrc & _ & H & Hl & _)]];
    rewrite H in Hcall |- *; cbn [snd] in Hcall |- *;
    rewrite Hl in Hcall |- *; rewrite lookup_after in Hcall |- *;
    cbn [lookup list_lookup] in Hcall |- *; [discriminate|..].
  - assert (E : third = (probe_invocation, Blocks)) by congruence.
    rewrite E. split; [reflexivity|]. subst o_c. eauto.
  - assert (E : third = (probe_invocation, o_p)) by congruence.
    rewrite E. split; [reflexivity|]. subst o_c. eauto.
Qed.

Lemma later_calls_need_ccc_success_witness :
  launched (snd (compile_code all_well square_O2 fresh))
    !! (length (launched fresh) + 2)%nat
    = Some (probe_invocation,
            Returns {| returncode := 0; stdout := py "GNU objdump";
                       stderr := [] |})
  /\ fst (probe_invocation,
          Returns {| returncode := 0; stdout := py "GNU objdump";
                     stderr := [] |}) = probe_invocation
  /\ exists inv proc,
       launched (snd (compile_code all_well square_O2 fresh))
         !! (length (launched fresh) + 1)%nat = Some (inv, Returns proc)
       /\ returncode proc = 0%Z.
Proof.
  assert (H : launched (snd (compile_code all_well square_O2 fresh))
                !! (length (launched fresh) + 2)%nat
              = Some (probe_invocation,
                      Returns {| returncode := 0; stdout := py "GNU objdump";
                                 stderr := [] |}))
    by (vm_compute; reflexivity).
  split; [exact H|].
  exact (later_calls_need_ccc_success all_well square_O2 fresh _ H).
Defined.



(** X17. In a run that returns, an exception raised by a call of a compiler
    or of the disassembler is reported as the failure of that call's
    backend, with [str(e)] as the message: GCC's entry for the first call,
    CCC's entry for a later one. The probe is the one call whose exception
    is not reported. *)
Theorem call_exceptions_become_failures w data st r i inv e :
  fst (compile_code w data st) = Returns r ->
  launched (snd (compile_code w data st)) !! (length (launched st) + i)%nat
    = Some (inv, Raises e) ->
  inv <> probe_invocation ->
  r !! (match i with O => py "gcc" | S _ => py "ccc" end)
    = Some (Failure (str_exception w e)).
Proof.
  intros Hr Hcall Hinv.
  destruct (called_run_set_up w data st _ _ Hcall) as [temp_dir Hset].
  destruct (compile_code_paths w data st temp_dir Hset)
    as (a & o_a & o_c & _ & Ha1 & _ & _ & Hp).
  cbv zeta in Hp.
  destruct Hp as [(b & st' & H & Hl & Hcase)
                 |[(proc & st' & _ & _ & H & Hl)
                  |(proc & o_p & o_d & b & st' & Hoc & _ & _ & H & Hl
                    & _ & Hd1 & _)]];
    rewrite H in Hr, Hcall; [|discriminate|];
    apply returns_inj in Hr; subst r; cbn [snd] in Hcall;
    rewrite Hl, lookup_after in Hcall.
  - destruct i as [|[|i]]; cbn [lookup list_lookup] in Hcall;
      [| |discriminate].
    + rewrite (proj1 (entries_lookup a b)). f_equal. apply Ha1. congruence.
    + rewrite (proj2 (entries_lookup a b)). f_equal.
      destruct Hcase as [(e' & He & Hb)|[(proc & Hoc & _)|(proc & Hoc & _)]];
        congruence.
  - destruct i as [|[|[|[|i]]]]; cbn [lookup list_lookup] in Hcall;
      [| | | |discriminate].
    + rewrite (proj1 (entries_lookup a b)). f_equal. apply Ha1. congruence.
    + congruence.
    + exfalso. apply Hinv. congruence.
    + rewrite (proj2 (entries_lookup a b)). f_equal. apply Hd1. congruence.
Qed.

Lemma call_exceptions_become_failures_witness :
  (fst (compile_code gcc_slow square_O2 fresh) =
     Returns
       (<[py "gcc" :=
            Failure
              (str_exception gcc_slow
                 (TimeoutExpired
                    (argv (gcc_invocation (py "-O2")
                             (py "/dev/shm/tmpk3x9q_ab/test.c"))) 5))]>
          (<[py "ccc" := Success (TAB :: py "mov eax, 0")]> ∅))
   /\ launched (snd (compile_code gcc_slow square_O2 fresh))
        !! (length (launched fresh) + 0)%nat
      = Some (gcc_invocation (py "-O2") (py "/dev/shm/tmpk3x9q_ab/test.c"),
              Raises
                (TimeoutExpired
                   (argv (gcc_invocation (py "-O2")
                            (py "/dev/shm/tmpk3x9q_ab/test.c"))) 5))
   /\ gcc_invocation (py "-O2") (py "/dev/shm/tmpk3x9q_ab/test.c")
      <> probe_invocation)
  /\ (<[py "gcc" :=
          Failure
            (str_exception gcc_slow
               (TimeoutExpired
                  (argv (gcc_invocation (py "-O2")
                           (py "/dev/shm/tmpk3x9q_ab/test.c"))) 5))]>
        (<[py "ccc" := Success (TAB :: py "mov eax, 0")]>
           (∅ : gmap (list N) backend_result)))
       !! py "gcc"
     = Some (Failure
               (str_exception gcc_slow
                  (TimeoutExpired
                     (argv (gcc_invocation (py "-O2")
                              (py "/dev/shm/tmpk3x9q_ab/test.c"))) 5))).
Proof.
  assert (H1 : fst (compile_code gcc_slow square_O2 fresh) =
     Returns
       (<[py "gcc" :=
            Failure
              (str_exception gcc_slow
                 (TimeoutExpired
                    (argv (gcc_invocation (py "-O2")
                             (py "/dev/shm/tmpk3x9q_ab/test.c"))) 5))]>
          (<[py "ccc" := Success (TAB :: py "mov eax, 0")]> ∅)))
    by (vm_compute; reflexivity).
  assert (H2 : launched (snd (compile_code gcc_slow square_O2 fresh))
        !! (length (launched fresh) + 0)%nat
      = Some (gcc_invocation (py "-O2") (py "/dev/shm/tmpk3x9q_ab/test.c"),
              Raises
                (TimeoutExpired
                   (argv (gcc_invocation (py "-O2")
                            (py "/dev/shm/tmpk3x9q_ab/test.c"))) 5)))
    by (vm_compute; reflexivity).
  assert (H3 : gcc_invocation (py "-O2") (py "/dev/shm/tmpk3x9q_ab/test.c")
               <> probe_invocation)
    by (intros E; vm_compute in E; discriminate).
  split; [auto|].
  exact (call_exceptions_become_failures gcc_slow square_O2 fresh _ 0 _ _
           H1 H2 H3).
Defined.
